(** * dotconfig: configuration directory and file lookup

    A shallow embedding of the Go package [dotconfig] (functions [Dir] and
    [File], their candidate generators and the name normalizer), together
    with the properties the specification states about them.

    Go strings are byte strings: they are modelled by [string].  The
    package-level function variables [xdgConfigHome], [userHomeDir],
    [dirExists] and [checkFile] are the only effects of the package; a
    program is a finite tree of calls to them and to the [yield] callback
    of a range-over-func iterator. *)

From Stdlib Require Import String Ascii List Bool Arith Lia.
From ExtLib Require Import Structures.Monad.
Import ListNotations.
Import MonadNotation.
Local Open Scope list_scope.
Local Open Scope string_scope.
Local Open Scope monad_scope.

(** The file has two parts: the definitions (the model of the package and
    the vocabulary of its properties), then the lemmas and theorems. *)

(* ===================================================================== *)
(** ** The part of Go's [path/filepath] the package calls (Unix flavour)  *)
(* ===================================================================== *)

Module filepath.

(** [os.IsPathSeparator] on Unix. *)
Definition isSep (c : ascii) : bool := Ascii.eqb c "/"%char.

(** [strings.Split(s, "/")]: the components between separators; never
    the empty list. *)
Fixpoint splitSep (s : string) : list string :=
  match s with
  | EmptyString => [EmptyString]
  | String c r =>
      if isSep c then EmptyString :: splitSep r
      else match splitSep r with
           | e :: es => String c e :: es
           | [] => [String c EmptyString]
           end
  end.

(** [strings.Join(l, "/")]. *)
Fixpoint joinSep (l : list string) : string :=
  match l with
  | [] => ""
  | [e] => e
  | e :: es => e ++ String "/"%char (joinSep es)
  end.

(** One round of the loop of [Clean], on a whole path element.  [out] is
    the output buffer as a stack of elements, last written first.  A ".."
    element removes the last written element when there is one that is
    not itself a kept ".." (the [out.w > dotdot] test); otherwise it is
    kept on a relative path and dropped on a rooted one. *)
Definition cleanStep (rooted : bool) (out : list string) (e : string)
  : list string :=
  if (e =? "") || (e =? ".") then out
  else if e =? ".." then
    match out with
    | top :: rest =>
        if top =? ".." then (if rooted then out else e :: out) else rest
    | [] => if rooted then out else [e]
    end
  else e :: out.

Definition isRooted (path : string) : bool :=
  match path with
  | String c _ => isSep c
  | EmptyString => false
  end.

Definition render (rooted : bool) (out : list string) : string :=
  let body := joinSep (rev out) in
  if rooted then String "/"%char body
  else if body =? "" then "." else body.

(** [filepath.Clean]. *)
Definition Clean (path : string) : string :=
  if path =? "" then "."
  else
    let rooted := isRooted path in
    render rooted (fold_left (cleanStep rooted) (splitSep path) []).

(** [filepath.Join]: leading empty elements are ignored, the rest is
    joined with separators and cleaned; no non-empty element gives "". *)
Fixpoint Join (elem : list string) : string :=
  match elem with
  | [] => ""
  | e :: es => if e =? "" then Join es else Clean (joinSep elem)
  end.

(** Trailing separators removed (first loop of [Base]). *)
Fixpoint stripTrailingSep (s : string) : string :=
  match s with
  | EmptyString => EmptyString
  | String c r =>
      match stripTrailingSep r with
      | EmptyString => if isSep c then EmptyString else String c EmptyString
      | r' => String c r'
      end
  end.

(** [filepath.Base]: the last element of the path; "." for the empty
    path and "/" for a path of separators only. *)
Definition Base (path : string) : string :=
  if path =? "" then "."
  else
    let e := last (splitSep (stripTrailingSep path)) "" in
    if e =? "" then "/" else e.

Definition hasSep (s : string) : bool :=
  existsb isSep (list_ascii_of_string s).

(** [filepath.Ext]: the suffix of the last element that starts at its
    last dot; "" when that element has no dot. *)
Fixpoint Ext (path : string) : string :=
  match path with
  | EmptyString => EmptyString
  | String c r =>
      match Ext r with
      | EmptyString =>
          if hasSep r then EmptyString
          else if Ascii.eqb c "."%char then path else EmptyString
      | e => e
      end
  end.

(** The path up to and including its last separator: [path[:i+1]] after
    the loop of [Dir] has moved [i] back to the last separator. *)
Fixpoint dirPrefix (path : string) : string :=
  match path with
  | EmptyString => EmptyString
  | String c r =>
      if hasSep r then String c (dirPrefix r)
      else if isSep c then String c EmptyString
      else EmptyString
  end.

(** [filepath.Dir]: all but the last element of the path, cleaned. *)
Definition Dir (path : string) : string := Clean (dirPrefix path).

End filepath.

(* ===================================================================== *)
(** ** Data model                                                         *)
(* ===================================================================== *)

(** [type fileExists int] with its three constants, in [iota] order. *)
Inductive fileExists : Type :=
| NotExists
| BaseExists
| FileExists.

Definition fileExists_eqb (a b : fileExists) : bool :=
  match a, b with
  | NotExists, NotExists | BaseExists, BaseExists | FileExists, FileExists => true
  | _, _ => false
  end.

(** What the four package-level function variables answer during one
    call: [XDG_CONFIG_HOME], the home directory ([None] when
    [os.UserHomeDir] returns an error), and the two existence
    predicates. *)
Record Env : Type := mkEnv {
  envXdg : string;
  envHome : option string;
  envDirExists : string -> bool;
  envCheckFile : string -> fileExists
}.

(** A program over the package's effects.  [Y] is the type of the values
    handed to [yield]; a program that is not an iterator has
    [Y = Empty_set]. *)
Inductive Prog (Y A : Type) : Type :=
| Ret (a : A)
| XdgConfigHome (k : string -> Prog Y A)
| UserHomeDir (k : option string -> Prog Y A)
| DirExists (dir : string) (k : bool -> Prog Y A)
| CheckFile (name : string) (k : fileExists -> Prog Y A)
| Yield (y : Y) (k : bool -> Prog Y A).

Arguments Ret {Y A} a.
Arguments XdgConfigHome {Y A} k.
Arguments UserHomeDir {Y A} k.
Arguments DirExists {Y A} dir k.
Arguments CheckFile {Y A} name k.
Arguments Yield {Y A} y k.

Fixpoint pbind {Y A B} (p : Prog Y A) (f : A -> Prog Y B) : Prog Y B :=
  match p with
  | Ret a => f a
  | XdgConfigHome k => XdgConfigHome (fun v => pbind (k v) f)
  | UserHomeDir k => UserHomeDir (fun v => pbind (k v) f)
  | DirExists d k => DirExists d (fun v => pbind (k v) f)
  | CheckFile n k => CheckFile n (fun v => pbind (k v) f)
  | Yield y k => Yield y (fun v => pbind (k v) f)
  end.

#[export] Instance Monad_Prog {Y} : Monad (Prog Y) :=
  {| ret := fun _ a => Ret a; bind := fun _ _ p f => pbind p f |}.

Definition xdgConfigHome {Y} : Prog Y string := XdgConfigHome Ret.
Definition userHomeDir {Y} : Prog Y (option string) := UserHomeDir Ret.
Definition dirExists {Y} (dir : string) : Prog Y bool := DirExists dir Ret.
Definition checkFile {Y} (name : string) : Prog Y fileExists := CheckFile name Ret.
Definition yield {Y} (y : Y) : Prog Y bool := Yield y Ret.

(** [iter.Seq[string]]. *)
Definition Seq : Type := Prog string unit.

(** How a [for ... range seq] statement is left: by a [return] in its
    body, by the end of the sequence, or by the runtime panic raised when
    the iterator calls [yield] again after the body has returned. *)
Inductive loopExit (R S : Type) : Type :=
| Returned (r : R)
| Finished (s : S)
| Panicked.

Arguments Returned {R S} r.
Arguments Finished {R S} s.
Arguments Panicked {R S}.

(** What one round of a loop body does: [return r], or fall through to
    the next round with the loop variables [s]. *)
Inductive bodyExit (R S : Type) : Type :=
| Return (r : R)
| Continue (s : S).

Arguments Return {R S} r.
Arguments Continue {R S} s.

(** The rest of an iterator after its [yield] has returned false. *)
Fixpoint drain {Y Y' R S} (seq : Prog Y unit) (r : R) : Prog Y' (loopExit R S) :=
  match seq with
  | Ret _ => Ret (Returned r)
  | XdgConfigHome k => XdgConfigHome (fun v => drain (k v) r)
  | UserHomeDir k => UserHomeDir (fun v => drain (k v) r)
  | DirExists d k => DirExists d (fun v => drain (k v) r)
  | CheckFile n k => CheckFile n (fun v => drain (k v) r)
  | Yield _ _ => Ret Panicked
  end.

(** [for y := range seq { body }]: the body becomes the [yield] callback
    of the iterator; it answers false exactly when it returns. *)
Fixpoint range {Y Y' R S} (seq : Prog Y unit)
    (body : Y -> S -> Prog Y' (bodyExit R S)) (s : S) : Prog Y' (loopExit R S) :=
  match seq with
  | Ret _ => Ret (Finished s)
  | XdgConfigHome k => XdgConfigHome (fun v => range (k v) body s)
  | UserHomeDir k => UserHomeDir (fun v => range (k v) body s)
  | DirExists d k => DirExists d (fun v => range (k v) body s)
  | CheckFile n k => CheckFile n (fun v => range (k v) body s)
  | Yield y k =>
      pbind (body y s) (fun b =>
        match b with
        | Return r => drain (k false) r
        | Continue s' => range (k true) body s'
        end)
  end.

(* ===================================================================== *)
(** ** The package                                                        *)
(* ===================================================================== *)

Import filepath.

(** *** Directory mode *)

(** The iterators take [yield] as their first parameter in Go; here it
    is the [yield] operation of [Prog]. *)
Definition listHome (home app : string) : Seq :=
  ok <- yield (Join [home; "lib"; app]) ;;
  if ok : bool then
    _ <- yield (Join [home; "." ++ app]) ;; ret tt
  else ret tt.

Definition listWithXDG (app xdg : string) : Seq :=
  ok <- yield (Join [xdg; app]) ;;
  if ok : bool then
    home <- userHomeDir ;;
    match home with
    | Some home => listHome home app
    | None => ret tt
    end
  else ret tt.

Definition listWithNoXDG (app : string) : Seq :=
  home <- userHomeDir ;;
  match home with
  | Some home =>
      ok <- yield (Join [home; ".config"; app]) ;;
      if ok : bool then listHome home app else ret tt
  | None => ret tt
  end.

(** Go's [list]; the underscore keeps Rocq's [list] type usable. *)
Definition list_ (app : string) : Seq :=
  xdg <- xdgConfigHome ;;
  if negb (xdg =? "") then listWithXDG app xdg else listWithNoXDG app.

(** The loop body of [Dir]; the loop variable is [fallback]. *)
Definition dirBody {Y} (dir fallback : string)
  : Prog Y (bodyExit (string * bool) string) :=
  ex <- dirExists dir ;;
  if ex : bool then ret (Return (dir, true))
  else ret (Continue (if fallback =? "" then dir else fallback)).

(** [Dir]; [None] stands for a panic of the range statement. *)
Definition Dir (app : string) : Prog Empty_set (option (string * bool)) :=
  e <- range (list_ app) dirBody "" ;;
  match e with
  | Returned r => ret (Some r)
  | Panicked => ret None
  | Finished fallback =>
      if fallback =? "" then
        let dir := "." ++ app in
        ex <- dirExists dir ;;
        ret (Some (dir, ex))
      else ret (Some (fallback, false))
  end.

(** *** File mode *)

Module fileConfig.

Record t : Type := mk { App : string; File : string }.

Definition ListHome (cfg : t) (home : string) : Seq :=
  ok <- yield (Join [home; "lib"; App cfg; File cfg]) ;;
  if ok : bool then
    ok <- yield (Join [home; "." ++ App cfg; File cfg]) ;;
    if ok : bool then
      _ <- yield (Join [home; "." ++ App cfg ++ Ext (File cfg)]) ;; ret tt
    else ret tt
  else ret tt.

Definition ListWithXDG (cfg : t) (xdg : string) : Seq :=
  ok <- yield (Join [xdg; App cfg; File cfg]) ;;
  if ok : bool then
    home <- userHomeDir ;;
    match home with
    | Some home => ListHome cfg home
    | None => ret tt
    end
  else ret tt.

Definition ListWithNoXDG (cfg : t) : Seq :=
  home <- userHomeDir ;;
  match home with
  | Some home =>
      ok <- yield (Join [home; ".config"; App cfg; File cfg]) ;;
      if ok : bool then ListHome cfg home else ret tt
  | None => ret tt
  end.

Definition List (cfg : t) : Seq :=
  xdg <- xdgConfigHome ;;
  if negb (xdg =? "") then ListWithXDG cfg xdg else ListWithNoXDG cfg.

End fileConfig.

Definition newFileConfig (app file : string) : fileConfig.t :=
  let file := Base file in
  let file := if (file =? ".") || (file =? "/") then app else file in
  fileConfig.mk app file.

(** The loop body of [File]. *)
Definition fileBody {Y} (file fallback : string)
  : Prog Y (bodyExit (string * fileExists) string) :=
  check <- checkFile file ;;
  if fileExists_eqb check FileExists then ret (Return (file, check))
  else ret (Continue (if fallback =? "" then file else fallback)).

(** Everything of [File] after [cfg := newFileConfig(app, name)]. *)
Definition fileOf (app : string) (cfg : fileConfig.t)
  : Prog Empty_set (option (string * fileExists)) :=
  e <- range (fileConfig.List cfg) fileBody "" ;;
  match e with
  | Returned r => ret (Some r)
  | Panicked => ret None
  | Finished fallback =>
      if fallback =? "" then
        let file := Join ["." ++ app; fileConfig.File cfg] in
        check <- checkFile file ;;
        if fileExists_eqb check FileExists then ret (Some (file, check))
        else
          let fallback := "." ++ app ++ Ext (fileConfig.File cfg) in
          check <- checkFile fallback ;;
          ret (Some (fallback, check))
      else
        check <- checkFile fallback ;;
        ret (Some (fallback, check))
  end.

Definition File (app name : string) : Prog Empty_set (option (string * fileExists)) :=
  fileOf app (newFileConfig app name).

(* ===================================================================== *)
(** ** Running a program                                                  *)
(* ===================================================================== *)

(** The calls a program makes, in order. *)
Inductive Event (Y : Type) : Type :=
| EvXdgConfigHome
| EvUserHomeDir
| EvDirExists (dir : string)
| EvCheckFile (name : string)
| EvYield (y : Y) (continue : bool).

Arguments EvXdgConfigHome {Y}.
Arguments EvUserHomeDir {Y}.
Arguments EvDirExists {Y} dir.
Arguments EvCheckFile {Y} name.
Arguments EvYield {Y} y continue.

(** [exec env consumer p s] runs [p] in the environment [env]; each
    [yield] is answered by [consumer], a callback with state [S].  The
    result is the trace of calls, the final state of the callback and the
    value of the program. *)
Fixpoint exec {Y S A} (env : Env) (consumer : Y -> S -> bool * S)
    (p : Prog Y A) (s : S) : list (Event Y) * (S * A) :=
  match p with
  | Ret a => ([], (s, a))
  | XdgConfigHome k =>
      let '(t, r) := exec env consumer (k (envXdg env)) s in
      (EvXdgConfigHome :: t, r)
  | UserHomeDir k =>
      let '(t, r) := exec env consumer (k (envHome env)) s in
      (EvUserHomeDir :: t, r)
  | DirExists d k =>
      let '(t, r) := exec env consumer (k (envDirExists env d)) s in
      (EvDirExists d :: t, r)
  | CheckFile n k =>
      let '(t, r) := exec env consumer (k (envCheckFile env n)) s in
      (EvCheckFile n :: t, r)
  | Yield y k =>
      let '(b, s') := consumer y s in
      let '(t, r) := exec env consumer (k b) s' in
      (EvYield y b :: t, r)
  end.

Definition noYield {S} (y : Empty_set) (s : S) : bool * S :=
  match y with end.

(** Value and trace of a program that is not an iterator. *)
Definition result {A} (env : Env) (p : Prog Empty_set A) : A :=
  snd (snd (exec env noYield p tt)).

Definition trace {A} (env : Env) (p : Prog Empty_set A) : list (Event Empty_set) :=
  fst (exec env noYield p tt).

(** The consumer [for path := range seq { paths = append(paths, path) }]. *)
Definition appendAll (path : string) (paths : list string) : bool * list string :=
  (true, (paths ++ [path])%list).

(** The generated sequence: every candidate of an iterator that is never
    stopped. *)
Definition candidates (env : Env) (seq : Seq) : list string :=
  fst (snd (exec env appendAll seq [])).

(** The candidates an arbitrary consumer gets to see, with its answers. *)
Fixpoint yields {Y} (t : list (Event Y)) : list (Y * bool) :=
  match t with
  | [] => []
  | EvYield y b :: t' => (y, b) :: yields t'
  | _ :: t' => yields t'
  end.

(** The directories [Dir] asks the predicate about, in order. *)
Fixpoint dirChecks {Y} (t : list (Event Y)) : list string :=
  match t with
  | [] => []
  | EvDirExists d :: t' => d :: dirChecks t'
  | _ :: t' => dirChecks t'
  end.

(** The files [File] asks the predicate about, in order. *)
Fixpoint fileChecks {Y} (t : list (Event Y)) : list string :=
  match t with
  | [] => []
  | EvCheckFile n :: t' => n :: fileChecks t'
  | _ :: t' => fileChecks t'
  end.


(* ===================================================================== *)
(** ** The candidate sequences and the policies, on lists                *)
(* ===================================================================== *)

(** These definitions are not part of the package.  They spell out, on
    plain lists, the sequences the iterators are proved to generate and
    the choice [Dir] and [File] are proved to make among them. *)

(** The home-dependent tail shared by both branches of [list]. *)
Definition homeCandidates (env : Env) (app : string) : list string :=
  match envHome env with
  | Some home => [Join [home; "lib"; app]; Join [home; "." ++ app]]
  | None => []
  end.

Definition dirCandidates (env : Env) (app : string) : list string :=
  if envXdg env =? "" then
    match envHome env with
    | Some home => Join [home; ".config"; app] :: homeCandidates env app
    | None => []
    end
  else Join [envXdg env; app] :: homeCandidates env app.

(** The policy of [Dir] on a list of candidates. *)
Definition resolveDir (env : Env) (app : string) (cs : list string) : string * bool :=
  match find (envDirExists env) cs with
  | Some d => (d, true)
  | None =>
      match cs with
      | c :: _ => (c, false)
      | [] => ("." ++ app, envDirExists env ("." ++ app))
      end
  end.

Definition isFile (env : Env) (name : string) : bool :=
  fileExists_eqb (envCheckFile env name) FileExists.

Definition fileHomeCandidates (env : Env) (cfg : fileConfig.t) : list string :=
  match envHome env with
  | Some home =>
      [Join [home; "lib"; fileConfig.App cfg; fileConfig.File cfg];
       Join [home; "." ++ fileConfig.App cfg; fileConfig.File cfg];
       Join [home; "." ++ fileConfig.App cfg ++ Ext (fileConfig.File cfg)]]
  | None => []
  end.

Definition fileCandidates (env : Env) (cfg : fileConfig.t) : list string :=
  if envXdg env =? "" then
    match envHome env with
    | Some home =>
        Join [home; ".config"; fileConfig.App cfg; fileConfig.File cfg]
        :: fileHomeCandidates env cfg
    | None => []
    end
  else Join [envXdg env; fileConfig.App cfg; fileConfig.File cfg]
       :: fileHomeCandidates env cfg.

(** The two local candidates [File] falls back to when the iterator
    yields nothing. *)
Definition localFile (env : Env) (app : string) (cfg : fileConfig.t)
  : string * fileExists :=
  let file := Join ["." ++ app; fileConfig.File cfg] in
  if isFile env file then (file, FileExists)
  else
    let fallback := "." ++ app ++ Ext (fileConfig.File cfg) in
    (fallback, envCheckFile env fallback).

(** The policy of [File] on a list of candidates. *)
Definition resolveFile (env : Env) (app : string) (cfg : fileConfig.t)
    (cs : list string) : string * fileExists :=
  match find (isFile env) cs with
  | Some f => (f, FileExists)
  | None =>
      match cs with
      | c :: _ => (c, envCheckFile env c)
      | [] => localFile env app cfg
      end
  end.

(** The elements of a list up to and including the first one that
    satisfies [p]: what a loop that stops at the first hit looks at. *)
Fixpoint upToFirst {A} (p : A -> bool) (l : list A) : list A :=
  match l with
  | [] => []
  | x :: rest => if p x then [x] else x :: upToFirst p rest
  end.


(** An iterator that does nothing more once a [yield] has returned
    false. *)
Fixpoint stopsOnDecline {Y A} (p : Prog Y A) : Prop :=
  match p with
  | Ret _ => True
  | XdgConfigHome k => forall v, stopsOnDecline (k v)
  | UserHomeDir k => forall v, stopsOnDecline (k v)
  | DirExists _ k => forall v, stopsOnDecline (k v)
  | CheckFile _ k => forall v, stopsOnDecline (k v)
  | Yield _ k => (exists a, k false = Ret a) /\ stopsOnDecline (k true)
  end.

(** The iterators of the package. *)
Inductive packageSeq : Seq -> Prop :=
| seq_list app : packageSeq (list_ app)
| seq_listWithXDG app xdg : packageSeq (listWithXDG app xdg)
| seq_listWithNoXDG app : packageSeq (listWithNoXDG app)
| seq_listHome home app : packageSeq (listHome home app)
| seq_List cfg : packageSeq (fileConfig.List cfg)
| seq_ListWithXDG cfg xdg : packageSeq (fileConfig.ListWithXDG cfg xdg)
| seq_ListWithNoXDG cfg : packageSeq (fileConfig.ListWithNoXDG cfg)
| seq_ListHome cfg home : packageSeq (fileConfig.ListHome cfg home).

(* ===================================================================== *)
(** ** Vocabulary of the path lemmas                                      *)
(* ===================================================================== *)

(** An element without separator. *)
Definition noSep (e : string) : Prop := hasSep e = false.

(** Elements the loop of [Clean] writes to its buffer. *)
Definition plain (e : string) : Prop := noSep e /\ e <> "" /\ e <> ".".

(** The buffer of [Clean]: plain elements, the kept ".." elements below
    all others, and none of them on a rooted path. *)
Fixpoint cleaned (rooted : bool) (out : list string) : Prop :=
  match out with
  | [] => True
  | e :: rest =>
      plain e
      /\ (e = ".." -> rooted = false /\ match rest with [] => True | top :: _ => top = ".." end)
      /\ cleaned rooted rest
  end.

(* ===================================================================== *)
(** ** Simulated environments of the package tests                        *)
(* ===================================================================== *)

Module Tests.

Definition only (path : string) (p : string) : bool := p =? path.
Definition onlyFile (path : string) (st : fileExists) (p : string) : fileExists :=
  if p =? path then st else NotExists.

Definition mock (xdg : string) (home : option string) : Env :=
  mkEnv xdg home (fun _ => false) (fun _ => NotExists).

Definition withDir (env : Env) (path : string) : Env :=
  mkEnv (envXdg env) (envHome env) (only path) (envCheckFile env).

Definition withFile (env : Env) (path : string) (st : fileExists) : Env :=
  mkEnv (envXdg env) (envHome env) (envDirExists env) (onlyFile path st).

Definition full : Env := mock "/mock/xdg" (Some "/mock/home").
Definition noXdg : Env := mock "" (Some "/mock/home").
Definition nothing : Env := mock "" None.

(** [TestListHomeEarlyTermination], [TestListXDGEarlyTermination]: the
    callback counts its calls and answers false. *)
Definition countAndStop (path : string) (called : nat) : bool * nat :=
  (false, S called).

(** The second and the third candidate exist, the first one does not. *)
Definition libAndDot (p : string) : bool :=
  (p =? "/mock/home/lib/myapp") || (p =? "/mock/home/.myapp").

(** The last two file candidates exist, the first two do not. *)
Definition dotFiles (p : string) : fileExists :=
  if (p =? "/mock/home/.myapp/config.yaml") || (p =? "/mock/home/.myapp.yaml")
  then FileExists else NotExists.


End Tests.

(* ===================================================================== *)
(** ** The initial values of the function variables                       *)
(* ===================================================================== *)

(** What [os.Stat] returns when its error is nil; [IsDir] is the only
    part of it the package reads. *)
Record FileInfo : Type := mkFileInfo { IsDir : bool }.

(** A file system as [os.Stat] shows it: [None] stands for an error. *)
Definition Stat : Type := string -> option FileInfo.

(** The function [dirExists] is initialized with. *)
Definition osDirExists (stat : Stat) (dir : string) : bool :=
  match stat dir with
  | Some info => IsDir info
  | None => false
  end.

(** The function [checkFile] is initialized with. *)
Definition osCheckFile (stat : Stat) (name : string) : fileExists :=
  match stat name with
  | Some _ => FileExists
  | None =>
      match stat (filepath.Dir name) with
      | Some _ => BaseExists
      | None => NotExists
      end
  end.

(** The environment of a call when both predicates have their initial
    values and look at the same file system. *)
Definition osEnv (xdg : string) (home : option string) (stat : Stat) : Env :=
  mkEnv xdg home (osDirExists stat) (osCheckFile stat).

(* ===================================================================== *)
(** ** More vocabulary                                                    *)
(* ===================================================================== *)

(** Calls of [xdgConfigHome] and of [userHomeDir] in a trace. *)
Fixpoint xdgLookups {Y} (t : list (Event Y)) : nat :=
  match t with
  | [] => 0
  | EvXdgConfigHome :: t' => S (xdgLookups t')
  | _ :: t' => xdgLookups t'
  end.

Fixpoint homeLookups {Y} (t : list (Event Y)) : nat :=
  match t with
  | [] => 0
  | EvUserHomeDir :: t' => S (homeLookups t')
  | _ :: t' => homeLookups t'
  end.

(** A file name that is one ordinary path element: no separator, not
    empty, neither "." nor "..". *)
Definition plainName (f : string) : Prop :=
  noSep f /\ f <> "" /\ f <> "." /\ f <> "..".

(** File systems for the examples. *)
Module Disk.

Definition dir : option FileInfo := Some (mkFileInfo true).
Definition file : option FileInfo := Some (mkFileInfo false).

(** Only the directory [/mock/xdg/myapp] exists. *)
Definition xdgDirOnly (p : string) : option FileInfo :=
  if p =? "/mock/xdg/myapp" then dir else None.

(** Only the directory [/mock/home/.myapp] exists. *)
Definition dotDirOnly (p : string) : option FileInfo :=
  if p =? "/mock/home/.myapp" then dir else None.

End Disk.

(* ===================================================================== *)
(** ** The package tests, replayed                                        *)
(* ===================================================================== *)

Example TestList_xdg :
  candidates Tests.full (list_ "myapp")
  = ["/mock/xdg/myapp"; "/mock/home/lib/myapp"; "/mock/home/.myapp"].
Proof. reflexivity. Qed.

Example TestList_noXdg :
  candidates Tests.noXdg (list_ "myapp")
  = ["/mock/home/.config/myapp"; "/mock/home/lib/myapp"; "/mock/home/.myapp"].
Proof. reflexivity. Qed.

Example TestFileConfig_List_xdg :
  candidates Tests.full (fileConfig.List (newFileConfig "myapp" "config.yaml"))
  = ["/mock/xdg/myapp/config.yaml"; "/mock/home/lib/myapp/config.yaml";
     "/mock/home/.myapp/config.yaml"; "/mock/home/.myapp.yaml"].
Proof. reflexivity. Qed.

Example TestFileConfig_List_noXdg :
  candidates Tests.noXdg (fileConfig.List (newFileConfig "myapp" "config.yaml"))
  = ["/mock/home/.config/myapp/config.yaml"; "/mock/home/lib/myapp/config.yaml";
     "/mock/home/.myapp/config.yaml"; "/mock/home/.myapp.yaml"].
Proof. reflexivity. Qed.

Example TestNewFileConfig :
  newFileConfig "myapp" "config.yaml" = fileConfig.mk "myapp" "config.yaml"
  /\ newFileConfig "myapp" "." = fileConfig.mk "myapp" "myapp"
  /\ newFileConfig "myapp" "/" = fileConfig.mk "myapp" "myapp"
  /\ newFileConfig "myapp" "/path/to/config.yaml" = fileConfig.mk "myapp" "config.yaml".
Proof. repeat split. Qed.

Example TestDir_no_hit :
  result Tests.full (Dir "myapp") = Some ("/mock/xdg/myapp", false).
Proof. reflexivity. Qed.

Example TestDir_lib_hit :
  result (Tests.withDir Tests.noXdg "/mock/home/lib/myapp") (Dir "myapp")
  = Some ("/mock/home/lib/myapp", true).
Proof. reflexivity. Qed.

Example TestDir_nothing :
  result Tests.nothing (Dir "myapp") = Some (".myapp", false)
  /\ result (Tests.withDir Tests.nothing ".myapp") (Dir "myapp") = Some (".myapp", true).
Proof. split; reflexivity. Qed.

Example TestFile_base_exists :
  result (Tests.withFile Tests.full "/mock/xdg/myapp/config.yaml" BaseExists) (File "myapp" "config.yaml")
  = Some ("/mock/xdg/myapp/config.yaml", BaseExists).
Proof. reflexivity. Qed.

Example TestFile_lib_hit :
  result (Tests.withFile Tests.noXdg "/mock/home/lib/myapp/config.yaml" FileExists) (File "myapp" "config.yaml")
  = Some ("/mock/home/lib/myapp/config.yaml", FileExists).
Proof. reflexivity. Qed.

Example TestFile_dot_file :
  result (Tests.withFile Tests.noXdg "/mock/home/.myapp.yaml" FileExists) (File "myapp" "config.yaml")
  = Some ("/mock/home/.myapp.yaml", FileExists).
Proof. reflexivity. Qed.

Example TestFile_local :
  result (Tests.withFile Tests.nothing ".myapp.yaml" FileExists) (File "myapp" "config.yaml")
  = Some (".myapp.yaml", FileExists)
  /\ result (Tests.withFile Tests.nothing ".myapp/config.yaml" FileExists) (File "myapp" "config.yaml")
  = Some (".myapp/config.yaml", FileExists)
  /\ result Tests.nothing (File "myapp" "config.yaml") = Some (".myapp.yaml", NotExists).
Proof. repeat split. Qed.

Example TestFile_sentinels :
  result (Tests.withFile Tests.full "/mock/xdg/myapp/myapp" FileExists) (File "myapp" ".")
  = Some ("/mock/xdg/myapp/myapp", FileExists)
  /\ result (Tests.withFile Tests.full "/mock/xdg/myapp/myapp" FileExists) (File "myapp" "/")
  = Some ("/mock/xdg/myapp/myapp", FileExists).
Proof. split; reflexivity. Qed.

Example TestListEarlyTermination :
  fst (snd (exec Tests.full Tests.countAndStop (listWithNoXDG "myapp") 0)) = 1
  /\ fst (snd (exec Tests.full Tests.countAndStop (listWithXDG "myapp" "/mock/xdg") 0)) = 1.
Proof. split; reflexivity. Qed.

(** Rows of the tables of Go's own tests of [Clean], [Join], [Base] and
    [Ext], as a check of the model of [path/filepath]. *)
Example path_tables :
  map Clean ["abc/def"; ""; "abc/"; "abc//def//ghi"; "//abc//"; "abc/./def";
             "abc/def/../ghi/../jkl"; "abc/def/../../.."; "/abc/def/../../..";
             "abc/def/../../../ghi/jkl/../../../mno"; "/../abc";
             "abc/../../././../def"]
  = ["abc/def"; "."; "abc"; "abc/def/ghi"; "/abc"; "abc/def";
     "abc/jkl"; ".."; "/";
     "../../mno"; "/abc";
     "../../def"]
  /\ map Join [["a"; "b"; "c"]; ["a"; "b/c"]; ["a/b"; "/c"]; ["a"; ""]; [""; "b"];
               ["/"; "a"]; ["/"; ""]; ["//"; "a"]; ["a/"; "b"]; [""; ""]; []]
     = ["a/b/c"; "a/b/c"; "a/b/c"; "a"; "b"; "/a"; "/"; "/a"; "a/b"; ""; ""]
  /\ map Base [""; "."; "/."; "/"; "////"; "x/"; "abc"; "abc/def"; "a/b/.x"; "a/b/c.x"]
     = ["."; "."; "."; "/"; "/"; "x"; "abc"; "def"; ".x"; "c.x"]
  /\ map Ext ["path.go"; "path.pb.go"; "a.dir/b"; "a.dir/b.go"; "a.dir/"; "."; ""]
     = [".go"; ".go"; ""; ".go"; ""; "."; ""].
Proof. repeat split. Qed.

(* ===================================================================== *)
(** ** Facts about the path functions                                     *)
(* ===================================================================== *)

Lemma Clean_nonempty (path : string) : Clean path <> "".
Proof.
  unfold Clean.
  destruct (path =? ""); [discriminate|].
  unfold render.
  destruct (isRooted path); [discriminate|].
  destruct (joinSep _ =? "") eqn:E; [discriminate|].
  now apply String.eqb_neq in E.
Qed.

(** [Join] returns "" only when every element is empty. *)
Lemma Join_nonempty (elem : list string) :
  (exists e, In e elem /\ e <> "") -> Join elem <> "".
Proof.
  induction elem as [|e es IH]; intros (x & Hin & Hx).
  - destruct Hin.
  - cbn [Join].
    destruct (String.eqb_spec e "") as [->|Hne].
    + apply IH. exists x. destruct Hin as [<-|Hin]; [congruence|auto].
    + apply Clean_nonempty.
Qed.

Lemma Join_eqb_empty (elem : list string) :
  existsb (fun e => negb (e =? "")) elem = true -> (Join elem =? "") = false.
Proof.
  intros H. apply String.eqb_neq, Join_nonempty.
  apply existsb_exists in H. destruct H as (e & Hin & He).
  exists e. split; [assumption|].
  intros ->. discriminate He.
Qed.

Lemma Base_sentinels : Base "" = "." /\ Base "." = "." /\ Base "/" = "/".
Proof. repeat split. Qed.

Lemma hasSep_cons c r : hasSep (String c r) = isSep c || hasSep r.
Proof. reflexivity. Qed.

Lemma splitSep_nonnil (s : string) : splitSep s <> [].
Proof.
  induction s as [|c r IH]; cbn; [discriminate|].
  destruct (isSep c); [discriminate|].
  destruct (splitSep r); [contradiction|discriminate].
Qed.

Lemma splitSep_app (a b : string) :
  splitSep (a ++ String "/"%char b) = (splitSep a ++ splitSep b)%list.
Proof.
  induction a as [|c r IH]; cbn; [reflexivity|].
  rewrite IH. destruct (isSep c); [reflexivity|].
  destruct (splitSep r) eqn:E; [now apply splitSep_nonnil in E|reflexivity].
Qed.

Lemma splitSep_all_noSep (s : string) : Forall noSep (splitSep s).
Proof.
  induction s as [|c r IH]; cbn.
  - repeat constructor.
  - destruct (isSep c) eqn:Ec.
    + constructor; [reflexivity|assumption].
    + destruct (splitSep r) as [|e es]; [repeat constructor; unfold noSep; cbn; now rewrite Ec|].
      inversion IH as [|? ? He Hes]; subst.
      constructor; [|assumption].
      unfold noSep in *. rewrite hasSep_cons, Ec. exact He.
Qed.

Lemma splitSep_one (e : string) : noSep e -> splitSep e = [e].
Proof.
  unfold noSep. induction e as [|c r IH]; [reflexivity|].
  rewrite hasSep_cons. intros H. apply orb_false_iff in H. destruct H as [Hc Hr].
  cbn. now rewrite Hc, (IH Hr).
Qed.

Lemma splitSep_joinSep (l : list string) :
  l <> [] -> Forall noSep l -> splitSep (joinSep l) = l.
Proof.
  induction l as [|e es IH]; [congruence|]. intros _ H.
  inversion H as [|? ? He Hes]; subst.
  destruct es as [|e' es].
  - now apply splitSep_one.
  - change (joinSep (e :: e' :: es)) with (e ++ String "/"%char (joinSep (e' :: es))).
    rewrite splitSep_app, (splitSep_one e He), IH; [reflexivity|discriminate|assumption].
Qed.

Lemma cleanStep_cleaned (rooted : bool) (out : list string) (e : string) :
  noSep e -> cleaned rooted out -> cleaned rooted (cleanStep rooted out e).
Proof.
  intros He Hout. unfold cleanStep.
  destruct (String.eqb_spec e "") as [->|Hne]; [exact Hout|].
  destruct (String.eqb_spec e ".") as [->|Hnd]; [exact Hout|]. cbn [orb].
  destruct (String.eqb_spec e "..") as [->|Hndd].
  - destruct out as [|top rest].
    + destruct rooted; cbn; [exact I|]. repeat split; try discriminate.
    + destruct (String.eqb_spec top "..") as [->|Ht].
      * destruct rooted; [exact Hout|].
        change (plain ".." /\ (".." = ".." -> false = false /\ ".." = "..")
                /\ cleaned false (".." :: rest)).
        split; [repeat split; discriminate|].
        split; [intros _; now split|exact Hout].
      * cbn in Hout. tauto.
  - cbn. repeat split; try assumption. all: intros; contradiction.
Qed.

Lemma fold_cleanStep_cleaned (rooted : bool) (l out : list string) :
  Forall noSep l -> cleaned rooted out ->
  cleaned rooted (fold_left (cleanStep rooted) l out).
Proof.
  intros Hl. revert out. induction Hl as [|e l He _ IH]; intros out Hout; cbn.
  - exact Hout.
  - apply IH. now apply cleanStep_cleaned.
Qed.

Lemma cleaned_noSep (rooted : bool) (out : list string) :
  cleaned rooted out -> Forall noSep out.
Proof.
  induction out as [|e rest IH]; cbn; [constructor|].
  intros ((He & _) & _ & Hr). constructor; auto.
Qed.

(** Reading a cleaned buffer again, bottom first, writes it again. *)
Lemma fold_cleanStep_rev (rooted : bool) (out : list string) :
  cleaned rooted out -> fold_left (cleanStep rooted) (rev out) [] = out.
Proof.
  induction out as [|e rest IH]; [reflexivity|].
  intros Hout. pose proof Hout as ((Hs & Hne & Hnd) & Hdd & Hrest).
  cbn [rev]. rewrite fold_left_app, (IH Hrest). cbn [fold_left].
  unfold cleanStep.
  apply String.eqb_neq in Hne, Hnd. rewrite Hne, Hnd. cbn [orb].
  destruct (String.eqb_spec e "..") as [->|Hndd]; [|reflexivity].
  destruct (Hdd eq_refl) as [-> Htop].
  destruct rest as [|top rest]; [reflexivity|].
  subst top. reflexivity.
Qed.

Lemma cleaned_plain (rooted : bool) (out : list string) :
  cleaned rooted out -> Forall plain out.
Proof.
  induction out as [|e rest IH]; cbn; [constructor|].
  intros (He & _ & Hr). constructor; auto.
Qed.

Lemma joinSep_head (c : ascii) (e : string) (es : list string) :
  exists r, joinSep (String c e :: es) = String c r.
Proof. destruct es; cbn; eauto. Qed.

Lemma append_String_assoc (a : string) (c : ascii) (b d : string) :
  (a ++ String c b) ++ d = a ++ String c (b ++ d).
Proof. induction a as [|x a IH]; cbn; [reflexivity|]. now rewrite IH. Qed.

Lemma joinSep_snoc (l : list string) (f : string) :
  l <> [] -> joinSep (l ++ [f]) = joinSep l ++ String "/"%char f.
Proof.
  induction l as [|e es IH]; [congruence|]. intros _.
  destruct es as [|e' es]; [reflexivity|].
  change (joinSep ((e :: e' :: es) ++ [f]))
    with (e ++ String "/"%char (joinSep ((e' :: es) ++ [f]))).
  rewrite IH by discriminate.
  change (joinSep (e :: e' :: es)) with (e ++ String "/"%char (joinSep (e' :: es))).
  now rewrite append_String_assoc.
Qed.

Lemma append_sep_nonempty (c f : string) :
  c <> "" ->
  (c ++ String "/"%char f =? "") = false
  /\ isRooted (c ++ String "/"%char f) = isRooted c.
Proof. destruct c; [congruence|]. intros _. split; reflexivity. Qed.

(** A rendered buffer is not empty, is rooted when the buffer is, and is
    read back as the same buffer. *)
Lemma render_read (rooted : bool) (out : list string) :
  cleaned rooted out ->
  render rooted out <> ""
  /\ isRooted (render rooted out) = rooted
  /\ fold_left (cleanStep rooted) (splitSep (render rooted out)) [] = out.
Proof.
  intros Hout. unfold render.
  assert (Hread : out <> [] ->
            exists c r, joinSep (rev out) = String c r /\ isSep c = false
            /\ fold_left (cleanStep rooted) (splitSep (joinSep (rev out))) [] = out).
  { intros Hne.
    assert (Hrev : rev out <> []).
    { intros E. apply Hne. now rewrite <- (rev_involutive out), E. }
    rewrite splitSep_joinSep, fold_cleanStep_rev; trivial.
    2:{ apply Forall_rev. now apply cleaned_noSep with rooted. }
    destruct (rev out) as [|e es] eqn:E; [congruence|].
    assert (He : plain e).
    { pose proof (cleaned_plain _ _ Hout) as Hp. rewrite Forall_forall in Hp.
      apply Hp, in_rev. rewrite E. now left. }
    destruct He as (Hs & Hn & _).
    destruct e as [|c e]; [congruence|].
    destruct (joinSep_head c e es) as [r Hr].
    exists c, r. repeat split; trivial.
    unfold noSep in Hs. rewrite hasSep_cons in Hs.
    now apply orb_false_iff in Hs. }
  destruct out as [|e rest].
  - destruct rooted; cbn; repeat split; discriminate.
  - destruct Hread as (c & r & Hj & Hc & Hf); [discriminate|].
    destruct rooted.
    + repeat split; [discriminate|].
      cbn [splitSep]. change (isSep "/") with true. cbn iota.
      cbn [fold_left]. change (cleanStep true [] "") with (@nil string).
      exact Hf.
    + rewrite Hj in *. cbn [String.eqb]. repeat split; [discriminate|assumption|].
      rewrite <- Hj in *. exact Hf.
Qed.

(** Cleaning the first part of a path beforehand changes nothing. *)
Lemma Clean_join (s f : string) :
  s <> "" -> Clean (Clean s ++ String "/"%char f) = Clean (s ++ String "/"%char f).
Proof.
  intros Hs.
  assert (Hst : cleaned (isRooted s) (fold_left (cleanStep (isRooted s)) (splitSep s) [])).
  { apply fold_cleanStep_cleaned; [apply splitSep_all_noSep|exact I]. }
  destruct (render_read _ _ Hst) as (Hne & Hr & Hf).
  assert (Hc : Clean s = render (isRooted s) (fold_left (cleanStep (isRooted s)) (splitSep s) [])).
  { unfold Clean. apply String.eqb_neq in Hs. now rewrite Hs. }
  rewrite Hc.
  destruct (append_sep_nonempty _ f Hne) as [E1 R1].
  destruct (append_sep_nonempty _ f Hs) as [E2 R2].
  unfold Clean. rewrite E1, E2, R1, R2, Hr.
  now rewrite !splitSep_app, !fold_left_app, Hf.
Qed.

(** [Join] of a joined path and one more element is [Join] of all the
    elements. *)
Lemma Join_snoc (elem : list string) (f : string) :
  Join [Join elem; f] = Join (elem ++ [f]).
Proof.
  induction elem as [|e es IH]; [reflexivity|].
  cbn [Join app].
  destruct (String.eqb_spec e "") as [->|He]; [exact IH|].
  cbn [Join].
  pose proof (Clean_nonempty (joinSep (e :: es))) as Hc.
  apply String.eqb_neq in Hc. rewrite Hc.
  change (joinSep [Clean (joinSep (e :: es)); f])
    with (Clean (joinSep (e :: es)) ++ String "/"%char f).
  change (e :: (es ++ [f])%list) with ((e :: es) ++ [f])%list.
  rewrite joinSep_snoc by discriminate.
  apply Clean_join.
  destruct e as [|c e]; [congruence|].
  destruct (joinSep_head c e es) as [r ->]. discriminate.
Qed.

Lemma stripTrailingSep_noSep (s : string) :
  hasSep s = false -> stripTrailingSep s = s.
Proof.
  unfold hasSep. induction s as [|c r IH]; cbn; [reflexivity|].
  intros H. apply orb_false_iff in H. destruct H as [Hc Hr].
  rewrite (IH Hr), Hc. now destruct r.
Qed.

(** A name without separator is its own final component; the empty name
    has the final component ".". *)
Lemma Base_noSep (app : string) :
  hasSep app = false -> Base app = app \/ Base app = ".".
Proof.
  intros H. unfold Base.
  destruct (String.eqb_spec app "") as [->|Hne]; [now right|left].
  rewrite (stripTrailingSep_noSep app H), (splitSep_one app H); cbn.
  apply String.eqb_neq in Hne. now rewrite Hne.
Qed.

(* ===================================================================== *)
(** ** Directory mode                                                     *)
(* ===================================================================== *)

#[local] Arguments Join : simpl never.

Lemma Join_first_eqb (elem : list string) (e : string) :
  In e elem -> (e =? "") = false -> (Join elem =? "") = false.
Proof.
  intros Hin He. apply Join_eqb_empty, existsb_exists.
  exists e. now rewrite He.
Qed.

(** The first candidate of either branch is not the empty string: it is
    joined from the non-empty XDG base, or from ".config". *)
Ltac first_candidate :=
  repeat match goal with
  | H : (?x =? "") = false |- context [Join ?l =? ""] =>
      rewrite (Join_first_eqb l x) by (cbn; auto)
  | |- context [Join ?l =? ""] =>
      rewrite (Join_first_eqb l ".config") by (cbn; auto)
  end.

(** Case analysis on every answer of the predicate [p] the goal asks for. *)
Ltac ask p :=
  repeat (first_candidate; cbn;
          match goal with
          | |- context [p ?c] => destruct (p c) eqn:?; cbn
          end).

Lemma find_first {A} (p : A -> bool) (pre post : list A) (x : A) :
  Forall (fun c => p c = false) pre -> p x = true ->
  find p (pre ++ x :: post) = Some x.
Proof.
  induction 1 as [|c pre Hc _ IH]; intros Hx; cbn.
  - now rewrite Hx.
  - rewrite Hc. now apply IH.
Qed.

Lemma find_none_all {A} (p : A -> bool) (l : list A) :
  Forall (fun c => p c = false) l -> find p l = None.
Proof.
  induction 1 as [|c l Hc _ IH]; cbn; [reflexivity|].
  now rewrite Hc.
Qed.

Lemma candidates_list_ (env : Env) (app : string) :
  candidates env (list_ app) = dirCandidates env app.
Proof.
  destruct env as [xdg home de cf].
  unfold candidates, dirCandidates, homeCandidates; cbn.
  destruct (xdg =? ""); destruct home; reflexivity.
Qed.

Lemma Dir_resolveDir (env : Env) (app : string) :
  result env (Dir app) = Some (resolveDir env app (candidates env (list_ app))).
Proof.
  rewrite candidates_list_.
  destruct env as [xdg home de cf].
  unfold result, resolveDir, dirCandidates, homeCandidates; cbn.
  destruct (xdg =? "") eqn:Ex; destruct home; cbn.
  all: ask de; first_candidate; reflexivity.
Qed.

Lemma Dir_checks_xdg (env : Env) (app : string) :
  envXdg env <> "" ->
  exists n, dirChecks (trace env (Dir app)) = firstn n (candidates env (list_ app)).
Proof.
  rewrite candidates_list_. intros Hx. apply String.eqb_neq in Hx.
  destruct env as [xdg home de cf].
  unfold trace, dirCandidates, homeCandidates; cbn in *.
  rewrite Hx. destruct home; cbn.
  all: ask de; first_candidate; cbn.
  all: first [ now exists 1 | now exists 2 | now exists 3 ].
Qed.

(** C1. For every application name and every directory predicate, [Dir]
    returns the earliest candidate of the generated sequence for which
    the predicate answers true, paired with true, whatever comes after it
    in the sequence; when the sequence is not empty and the predicate
    answers false for every candidate, [Dir] returns the first candidate
    of the sequence paired with false. *)
Theorem Dir_policy (env : Env) (app : string) :
  let cs := candidates env (list_ app) in
  (forall pre d post,
      cs = (pre ++ d :: post)%list ->
      Forall (fun c => envDirExists env c = false) pre ->
      envDirExists env d = true ->
      result env (Dir app) = Some (d, true))
  /\ (forall c rest,
      cs = c :: rest ->
      Forall (fun c' => envDirExists env c' = false) cs ->
      result env (Dir app) = Some (c, false)).
Proof.
  intros cs; split.
  - intros pre d post Hcs Hpre Hd.
    rewrite Dir_resolveDir. fold cs. rewrite Hcs.
    unfold resolveDir. now rewrite (find_first _ pre post d Hpre Hd).
  - intros c rest Hcs Hall.
    rewrite Dir_resolveDir. fold cs.
    unfold resolveDir. rewrite (find_none_all _ cs Hall).
    now rewrite Hcs.
Qed.

Lemma Dir_policy_witness :
  result (mkEnv "" (Some "/mock/home") Tests.libAndDot (fun _ => NotExists)) (Dir "myapp")
  = Some ("/mock/home/lib/myapp", true)
  /\ result Tests.full (Dir "myapp") = Some ("/mock/xdg/myapp", false).
Proof.
  split.
  - apply (proj1 (Dir_policy (mkEnv "" (Some "/mock/home") Tests.libAndDot (fun _ => NotExists)) "myapp")
             ["/mock/home/.config/myapp"] "/mock/home/lib/myapp" ["/mock/home/.myapp"]).
    + reflexivity.
    + repeat constructor.
    + reflexivity.
  - apply (proj2 (Dir_policy Tests.full "myapp")
             "/mock/xdg/myapp" ["/mock/home/lib/myapp"; "/mock/home/.myapp"]).
    + reflexivity.
    + repeat constructor.
Defined.

(** C3. The directory-mode candidate sequence is: with a non-empty XDG
    base, [xdg/app] and then, only when the home directory resolves,
    [home/lib/app] and [home/.app]; with an empty XDG base and a
    resolvable home directory, [home/.config/app], [home/lib/app],
    [home/.app]; without a home directory nothing follows the XDG
    candidate, and the whole sequence is empty in the branch without XDG
    base. *)
Theorem list_candidates (env : Env) (app : string) :
  candidates env (list_ app) =
    match negb (envXdg env =? ""), envHome env with
    | true, Some home =>
        [Join [envXdg env; app]; Join [home; "lib"; app]; Join [home; "." ++ app]]
    | true, None =>
        [Join [envXdg env; app]]
    | false, Some home =>
        [Join [home; ".config"; app]; Join [home; "lib"; app]; Join [home; "." ++ app]]
    | false, None => []
    end.
Proof.
  rewrite candidates_list_. unfold dirCandidates, homeCandidates.
  destruct (envXdg env =? ""); destruct (envHome env); reflexivity.
Qed.

(** C5. With an empty XDG base and a failing home-directory lookup the
    generator yields nothing, and [Dir] returns [.app] paired with the
    answer of the directory predicate for that very path (so true when
    [.app] exists), not an error.  With a non-empty XDG base the
    generator yields at least one candidate, the returned path is one of
    the candidates, and the predicate is only ever asked about
    candidates: the local fallback is not used. *)
Theorem Dir_local_fallback (env : Env) (app : string) :
  (envXdg env = "" -> envHome env = None ->
     candidates env (list_ app) = []
     /\ result env (Dir app) = Some ("." ++ app, envDirExists env ("." ++ app))
     /\ dirChecks (trace env (Dir app)) = ["." ++ app])
  /\ (envXdg env <> "" ->
     (exists c rest, candidates env (list_ app) = c :: rest)
     /\ (exists p ex, result env (Dir app) = Some (p, ex)
                      /\ In p (candidates env (list_ app)))
     /\ (exists n, dirChecks (trace env (Dir app))
                   = firstn n (candidates env (list_ app)))).
Proof.
  split.
  - intros Hx Hh. rewrite Dir_resolveDir, candidates_list_.
    destruct env as [xdg home de cf]; cbn in *; subst.
    repeat split.
  - intros Hx. split; [|split].
    + rewrite candidates_list_. unfold dirCandidates.
      apply String.eqb_neq in Hx. rewrite Hx. eauto.
    + rewrite Dir_resolveDir, candidates_list_. unfold dirCandidates, resolveDir.
      apply String.eqb_neq in Hx. rewrite Hx.
      destruct (find _ _) as [d|] eqn:Hf.
      * exists d, true. split; [reflexivity|]. now apply find_some in Hf.
      * eexists _, false. split; [reflexivity|]. now left.
    + now apply Dir_checks_xdg.
Qed.

Lemma Dir_local_fallback_witness :
  result (Tests.withDir Tests.nothing ".myapp") (Dir "myapp") = Some (".myapp", true)
  /\ result Tests.nothing (Dir "myapp") = Some (".myapp", false)
  /\ exists c rest, candidates (Tests.mock "/mock/xdg" None) (list_ "myapp") = c :: rest.
Proof.
  split; [|split].
  - exact (proj1 (proj2 (proj1 (Dir_local_fallback (Tests.withDir Tests.nothing ".myapp") "myapp")
                           eq_refl eq_refl))).
  - exact (proj1 (proj2 (proj1 (Dir_local_fallback Tests.nothing "myapp") eq_refl eq_refl))).
  - refine (proj1 (proj2 (Dir_local_fallback (Tests.mock "/mock/xdg" None) "myapp") _)).
    discriminate.
Defined.

(* ===================================================================== *)
(** ** File mode                                                          *)
(* ===================================================================== *)

Lemma isFile_true (env : Env) (name : string) :
  isFile env name = true <-> envCheckFile env name = FileExists.
Proof. unfold isFile. destruct (envCheckFile env name); cbn; split; congruence. Qed.

Lemma isFile_false (env : Env) (name : string) :
  isFile env name = false <-> envCheckFile env name <> FileExists.
Proof. unfold isFile. destruct (envCheckFile env name); cbn; split; congruence. Qed.

Lemma candidates_List (env : Env) (cfg : fileConfig.t) :
  candidates env (fileConfig.List cfg) = fileCandidates env cfg.
Proof.
  destruct env as [xdg home de cf]; destruct cfg as [app file].
  unfold candidates, fileCandidates, fileHomeCandidates; cbn.
  destruct (xdg =? ""); destruct home; reflexivity.
Qed.

Lemma fileOf_resolveFile (env : Env) (app : string) (cfg : fileConfig.t) :
  result env (fileOf app cfg)
  = Some (resolveFile env app cfg (candidates env (fileConfig.List cfg))).
Proof.
  rewrite candidates_List.
  destruct env as [xdg home de cf]; destruct cfg as [app' file].
  unfold result, resolveFile, localFile, fileCandidates, fileHomeCandidates, isFile; cbn.
  destruct (xdg =? "") eqn:Ex; destruct home; cbn.
  all: ask cf; first_candidate; first [reflexivity | congruence].
Qed.

Lemma candidates_List_nil (env : Env) (cfg : fileConfig.t) :
  candidates env (fileConfig.List cfg) = [] ->
  envXdg env = "" /\ envHome env = None.
Proof.
  rewrite candidates_List. unfold fileCandidates.
  destruct (String.eqb_spec (envXdg env) ""); [|discriminate].
  destruct (envHome env); [discriminate|]. auto.
Qed.

(** C2. [File] returns the earliest candidate of the generated sequence
    whose status is [FileExists], paired with [FileExists]; when the
    sequence is not empty and no candidate has status [FileExists],
    [File] returns the first candidate of the sequence paired with the
    status the predicate reports for it, which is [NotExists] or
    [BaseExists]. *)
Theorem File_policy (env : Env) (app name : string) :
  let cs := candidates env (fileConfig.List (newFileConfig app name)) in
  (forall pre f post,
      cs = (pre ++ f :: post)%list ->
      Forall (fun c => envCheckFile env c <> FileExists) pre ->
      envCheckFile env f = FileExists ->
      result env (File app name) = Some (f, FileExists))
  /\ (forall c rest,
      cs = c :: rest ->
      Forall (fun c' => envCheckFile env c' <> FileExists) cs ->
      result env (File app name) = Some (c, envCheckFile env c)
      /\ (envCheckFile env c = NotExists \/ envCheckFile env c = BaseExists)).
Proof.
  intros cs; split.
  - intros pre f post Hcs Hpre Hf.
    unfold File. rewrite fileOf_resolveFile. fold cs. rewrite Hcs.
    unfold resolveFile. rewrite (find_first (isFile env) pre post f); [reflexivity| |].
    + eapply Forall_impl; [|exact Hpre]. intros c Hc. now apply isFile_false.
    + now apply isFile_true.
  - intros c rest Hcs Hall. split.
    + unfold File. rewrite fileOf_resolveFile. fold cs.
      unfold resolveFile. rewrite (find_none_all (isFile env) cs).
      * now rewrite Hcs.
      * eapply Forall_impl; [|exact Hall]. intros c' Hc. now apply isFile_false.
    + rewrite Hcs in Hall. apply Forall_inv in Hall.
      destruct (envCheckFile env c); [now left|now right|congruence].
Qed.

Lemma File_policy_witness :
  result (mkEnv "/mock/xdg" (Some "/mock/home") (fun _ => false) Tests.dotFiles)
         (File "myapp" "config.yaml")
  = Some ("/mock/home/.myapp/config.yaml", FileExists)
  /\ result (Tests.withFile Tests.full "/mock/xdg/myapp/config.yaml" BaseExists)
            (File "myapp" "config.yaml")
     = Some ("/mock/xdg/myapp/config.yaml", BaseExists).
Proof.
  split.
  - apply (proj1 (File_policy (mkEnv "/mock/xdg" (Some "/mock/home") (fun _ => false) Tests.dotFiles)
                    "myapp" "config.yaml")
             ["/mock/xdg/myapp/config.yaml"; "/mock/home/lib/myapp/config.yaml"]
             "/mock/home/.myapp/config.yaml" ["/mock/home/.myapp.yaml"]).
    + reflexivity.
    + repeat constructor; discriminate.
    + reflexivity.
  - apply (proj2 (File_policy (Tests.withFile Tests.full "/mock/xdg/myapp/config.yaml" BaseExists)
                    "myapp" "config.yaml")
             "/mock/xdg/myapp/config.yaml"
             ["/mock/home/lib/myapp/config.yaml"; "/mock/home/.myapp/config.yaml";
              "/mock/home/.myapp.yaml"]).
    + reflexivity.
    + repeat constructor; discriminate.
Defined.

(** C6. When the generator yields no candidate for a file lookup, [File]
    first checks [.app] joined with the normalized file name and returns
    that path with [FileExists] when it exists; otherwise it returns
    [.app] followed by the extension of the normalized file name, paired
    with what the predicate reports for that second path. *)
Theorem File_local_fallback (env : Env) (app name : string) :
  let cfg := newFileConfig app name in
  let file := Join ["." ++ app; fileConfig.File cfg] in
  let fallback := "." ++ app ++ Ext (fileConfig.File cfg) in
  candidates env (fileConfig.List cfg) = [] ->
  (envCheckFile env file = FileExists ->
     result env (File app name) = Some (file, FileExists)
     /\ fileChecks (trace env (File app name)) = [file])
  /\ (envCheckFile env file <> FileExists ->
     result env (File app name) = Some (fallback, envCheckFile env fallback)
     /\ fileChecks (trace env (File app name)) = [file; fallback]).
Proof.
  intros cfg file fallback Hnil.
  destruct (candidates_List_nil env cfg Hnil) as [Hx Hh].
  unfold File. fold cfg. subst file fallback. clearbody cfg.
  destruct env as [xdg home de cf]; destruct cfg as [app' file'].
  cbn in Hx, Hh; subst xdg home.
  unfold result, trace; cbn.
  split; intros Hf.
  - rewrite Hf; cbn. split; reflexivity.
  - destruct (cf (Join _)) eqn:E; cbn; try (split; reflexivity). congruence.
Qed.

(** The three outcomes of the local fallback, the last one with
    [FileExists] reported for the extension variant. *)
Lemma File_local_fallback_witness :
  result (Tests.withFile Tests.nothing ".myapp/config.yaml" FileExists)
         (File "myapp" "config.yaml") = Some (".myapp/config.yaml", FileExists)
  /\ result Tests.nothing (File "myapp" "config.yaml") = Some (".myapp.yaml", NotExists)
  /\ result (Tests.withFile Tests.nothing ".myapp.yaml" FileExists)
            (File "myapp" "config.yaml") = Some (".myapp.yaml", FileExists).
Proof.
  split; [|split].
  - exact (proj1 (proj1 (File_local_fallback
                           (Tests.withFile Tests.nothing ".myapp/config.yaml" FileExists)
                           "myapp" "config.yaml" eq_refl) eq_refl)).
  - refine (proj1 (proj2 (File_local_fallback Tests.nothing "myapp" "config.yaml" eq_refl) _)).
    discriminate.
  - refine (proj1 (proj2 (File_local_fallback
                            (Tests.withFile Tests.nothing ".myapp.yaml" FileExists)
                            "myapp" "config.yaml" eq_refl) _)).
    discriminate.
Defined.

(* ===================================================================== *)
(** ** File mode mirrors directory mode                                   *)
(* ===================================================================== *)

(** C4. The file-mode candidate sequence is the directory-mode sequence
    with the normalized file name joined onto every directory candidate,
    plus one more candidate, [home/.app] followed by the extension of the
    normalized file name, which comes right after the [home/.app/name]
    variant (so exactly when the home directory resolves). *)
Theorem List_mirrors_list (env : Env) (app name : string) :
  let file := fileConfig.File (newFileConfig app name) in
  let extra :=
    match envHome env with
    | Some home => [Join [home; "." ++ app ++ Ext file]]
    | None => []
    end in
  candidates env (fileConfig.List (newFileConfig app name))
  = List.app (map (fun dir => Join [dir; file]) (candidates env (list_ app))) extra
  /\ (forall home, envHome env = Some home ->
      exists pre,
        candidates env (fileConfig.List (newFileConfig app name))
        = List.app pre [Join [home; "." ++ app; file]; Join [home; "." ++ app ++ Ext file]]).
Proof.
  intros file extra. subst extra.
  rewrite candidates_List, candidates_list_.
  unfold fileCandidates, fileHomeCandidates, dirCandidates, homeCandidates.
  change (fileConfig.App (newFileConfig app name)) with app. fold file.
  split.
  - destruct (envXdg env =? ""); destruct (envHome env); cbn [map List.app];
      now rewrite ?Join_snoc.
  - intros home ->.
    destruct (envXdg env =? ""); eexists [_; _]; reflexivity.
Qed.

Lemma List_mirrors_list_witness :
  exists pre,
    candidates Tests.full (fileConfig.List (newFileConfig "myapp" "config.yaml"))
    = (pre ++ ["/mock/home/.myapp/config.yaml"; "/mock/home/.myapp.yaml"])%list.
Proof.
  exact (proj2 (List_mirrors_list Tests.full "myapp" "config.yaml") "/mock/home" eq_refl).
Defined.

(** The extension is the one of the normalized name: for the sentinel
    name "." it is the extension of the application name, not ".". *)
Example ext_of_normalized_name :
  Ext "." = "."
  /\ candidates Tests.noXdg (fileConfig.List (newFileConfig "my.app" "."))
     = ["/mock/home/.config/my.app/my.app"; "/mock/home/lib/my.app/my.app";
        "/mock/home/.my.app/my.app"; "/mock/home/.my.app.app"].
Proof. split; reflexivity. Qed.


(* ===================================================================== *)
(** ** Determinism                                                        *)
(* ===================================================================== *)






(* ===================================================================== *)
(** ** Early termination                                                  *)
(* ===================================================================== *)

Lemma declined_is_last {Y S A} (env : Env) (consumer : Y -> S -> bool * S)
    (p : Prog Y A) :
  stopsOnDecline p ->
  forall s pre y post,
    fst (exec env consumer p s) = (pre ++ EvYield y false :: post)%list -> post = [].
Proof.
  induction p as [a|k IH|k IH|d k IH|n k IH|y0 k IH]; cbn; intros Hp s pre y post.
  - destruct pre; discriminate.
  - destruct (exec env consumer (k _) s) as [t r] eqn:E; cbn.
    destruct pre as [|e pre]; cbn; [discriminate|]. intros [= _ Ht].
    eapply IH; [apply Hp|]. rewrite E. exact Ht.
  - destruct (exec env consumer (k _) s) as [t r] eqn:E; cbn.
    destruct pre as [|e pre]; cbn; [discriminate|]. intros [= _ Ht].
    eapply IH; [apply Hp|]. rewrite E. exact Ht.
  - destruct (exec env consumer (k _) s) as [t r] eqn:E; cbn.
    destruct pre as [|e pre]; cbn; [discriminate|]. intros [= _ Ht].
    eapply IH; [apply Hp|]. rewrite E. exact Ht.
  - destruct (exec env consumer (k _) s) as [t r] eqn:E; cbn.
    destruct pre as [|e pre]; cbn; [discriminate|]. intros [= _ Ht].
    eapply IH; [apply Hp|]. rewrite E. exact Ht.
  - destruct Hp as [[a Ha] Hp].
    destruct (consumer y0 s) as [[|] s'].
    + destruct (exec env consumer (k true) s') as [t r] eqn:E; cbn.
      destruct pre as [|e pre]; cbn; [discriminate|]. intros [= _ Ht].
      eapply IH; [apply Hp|]. rewrite E. exact Ht.
    + rewrite Ha; cbn.
      destruct pre as [|e pre]; cbn; [now intros [= _ <-]|].
      intros [= _ Ht]. destruct pre; discriminate.
Qed.

Lemma yields_cons_inv {Y} (t : list (Event Y)) (y : Y) (b : bool) (ys : list (Y * bool)) :
  yields t = (y, b) :: ys ->
  exists pre post, t = (pre ++ EvYield y b :: post)%list /\ yields post = ys.
Proof.
  induction t as [|e t IH]; cbn; [discriminate|].
  destruct e; try (intros H; destruct (IH H) as (pre & post & -> & Hp);
                   eexists (_ :: pre), post; now split).
  intros [= -> -> <-]. now exists [], t.
Qed.

Lemma packageSeq_stops (seq : Seq) : packageSeq seq -> stopsOnDecline seq.
Proof.
  destruct 1; cbn; intros;
    repeat match goal with
           | |- forall _, _ => intro
           | |- context [if ?b then _ else _] => destruct b; cbn; intros
           | |- context [match ?o with Some _ => _ | None => _ end] =>
               destruct o; cbn; intros
           | |- _ /\ _ => split
           | |- exists _, _ => eexists; reflexivity
           end; auto.
Qed.

(** The resolvers stop asking at the first hit: [Dir] checks the
    candidates up to and including the first existing one and nothing
    else, or [.app] alone when there is no candidate. *)
Lemma Dir_checks (env : Env) (app : string) :
  dirChecks (trace env (Dir app)) =
    match candidates env (list_ app) with
    | [] => ["." ++ app]
    | cs => upToFirst (envDirExists env) cs
    end.
Proof.
  rewrite candidates_list_.
  destruct env as [xdg home de cf].
  unfold trace, dirCandidates, homeCandidates; cbn.
  destruct (xdg =? "") eqn:Ex; destruct home; cbn.
  all: ask de; first_candidate; reflexivity.
Qed.

(** [File] does the same and, without a hit, asks once more about the
    first candidate, whose status it returns. *)
Lemma File_checks (env : Env) (app : string) (cfg : fileConfig.t) :
  fileChecks (trace env (fileOf app cfg)) =
    match candidates env (fileConfig.List cfg) with
    | [] =>
        Join ["." ++ app; fileConfig.File cfg]
        :: (if isFile env (Join ["." ++ app; fileConfig.File cfg]) then []
            else ["." ++ app ++ Ext (fileConfig.File cfg)])
    | c :: rest =>
        List.app (upToFirst (isFile env) (c :: rest))
                 (if existsb (isFile env) (c :: rest) then [] else [c])
    end.
Proof.
  rewrite candidates_List.
  destruct env as [xdg home de cf]; destruct cfg as [app' file].
  unfold trace, fileCandidates, fileHomeCandidates, isFile; cbn.
  destruct (xdg =? "") eqn:Ex; destruct home; cbn.
  all: ask cf; first_candidate; first [reflexivity | congruence].
Qed.

(** C9. Whatever the consumer, an iterator of the package makes no call
    at all (no [yield], no lookup) after a [yield] that the consumer
    answered with false; in particular, when the consumer declines the
    first candidate, that candidate is the only one generated. *)
Theorem early_termination {S} (seq : Seq) (env : Env)
    (consumer : string -> S -> bool * S) (s : S) :
  packageSeq seq ->
  let t := fst (exec env consumer seq s) in
  (forall pre y post, t = (pre ++ EvYield y false :: post)%list -> post = [])
  /\ (forall y ys, yields t = (y, false) :: ys -> ys = []).
Proof.
  intros Hseq t.
  assert (H : forall pre y post, t = (pre ++ EvYield y false :: post)%list -> post = []).
  { intros pre y post Ht.
    apply (declined_is_last env consumer seq (packageSeq_stops seq Hseq) s pre y post Ht). }
  split; [exact H|].
  intros y ys Hy.
  destruct (yields_cons_inv t y false ys Hy) as (pre & post & Ht & <-).
  now rewrite (H pre y post Ht).
Qed.

Lemma early_termination_witness :
  skipn 2 (fst (exec Tests.full Tests.countAndStop (list_ "myapp") 0)) = []
  /\ tl (yields (fst (exec Tests.full Tests.countAndStop (list_ "myapp") 0))) = [].
Proof.
  split.
  - apply (proj1 (early_termination (list_ "myapp") Tests.full Tests.countAndStop 0
                    (seq_list "myapp"))
             [EvXdgConfigHome] "/mock/xdg/myapp").
    reflexivity.
  - apply (proj2 (early_termination (list_ "myapp") Tests.full Tests.countAndStop 0
                    (seq_list "myapp"))
             "/mock/xdg/myapp").
    reflexivity.
Defined.

(* ===================================================================== *)
(** ** The name normalizer                                                *)
(* ===================================================================== *)

Lemma newFileConfig_sentinel (app name : string) :
  Base name = "." \/ Base name = "/" ->
  newFileConfig app name = fileConfig.mk app app.
Proof.
  unfold newFileConfig. intros [-> | ->]; reflexivity.
Qed.

Lemma newFileConfig_own_base (app : string) :
  Base app = app \/ Base app = "." \/ Base app = "/" ->
  newFileConfig app app = fileConfig.mk app app.
Proof.
  intros [H | H]; [|now apply newFileConfig_sentinel].
  unfold newFileConfig. rewrite H.
  now destruct ((app =? ".") || (app =? "/")).
Qed.

(** C8, as amended.  For every [app] and every environment, [File app "."]
    and [File app "/"] return what the lookup with the normalized file
    name [app] returns; this is what [File app app] returns whenever the
    final path component of [app] is [app] itself or a sentinel, so for
    every [app] without a path separator. *)
Theorem File_sentinel_names (env : Env) (app : string) :
  (result env (File app ".") = result env (fileOf app (fileConfig.mk app app))
   /\ result env (File app "/") = result env (fileOf app (fileConfig.mk app app)))
  /\ (Base app = app \/ Base app = "." \/ Base app = "/" ->
      result env (File app ".") = result env (File app app)
      /\ result env (File app "/") = result env (File app app))
  /\ (hasSep app = false ->
      result env (File app ".") = result env (File app app)
      /\ result env (File app "/") = result env (File app app)).
Proof.
  assert (Hdot : File app "." = fileOf app (fileConfig.mk app app)).
  { unfold File. rewrite newFileConfig_sentinel; [reflexivity|now left]. }
  assert (Hslash : File app "/" = fileOf app (fileConfig.mk app app)).
  { unfold File. rewrite newFileConfig_sentinel; [reflexivity|now right]. }
  assert (Hown : Base app = app \/ Base app = "." \/ Base app = "/" ->
                 File app app = fileOf app (fileConfig.mk app app)).
  { intros H. unfold File. now rewrite newFileConfig_own_base. }
  rewrite Hdot, Hslash. split; [split; reflexivity|]. split.
  - intros H. rewrite (Hown H). split; reflexivity.
  - intros H. rewrite Hown; [split; reflexivity|].
    destruct (Base_noSep app H); auto.
Qed.

Lemma File_sentinel_names_witness :
  result Tests.full (File "myapp" ".") = result Tests.full (File "myapp" "myapp")
  /\ result Tests.full (File "myapp" "/") = result Tests.full (File "myapp" "myapp").
Proof.
  split.
  - exact (proj1 (proj1 (proj2 (File_sentinel_names Tests.full "myapp")) (or_introl eq_refl))).
  - exact (proj2 (proj2 (proj2 (File_sentinel_names Tests.full "myapp")) eq_refl)).
Defined.

(** C8 as stated fails for an application name with a separator inside:
    the sentinel keeps the whole of "a/b" as the file name, the literal
    request is reduced to its final component "b". *)
Lemma File_sentinel_counterexample :
  result Tests.full (File "a/b" ".") = Some ("/mock/xdg/a/b/a/b", NotExists)
  /\ result Tests.full (File "a/b" "/") = Some ("/mock/xdg/a/b/a/b", NotExists)
  /\ result Tests.full (File "a/b" "a/b") = Some ("/mock/xdg/a/b/b", NotExists)
  /\ ~ (forall env app,
          result env (File app ".") = result env (File app app)
          /\ result env (File app "/") = result env (File app app)).
Proof.
  repeat split.
  intros H. destruct (H Tests.full "a/b") as [H1 _].
  vm_compute in H1. discriminate H1.
Qed.

(** C10, as amended.  For every [app] and every environment, [File app ""]
    returns what [File app "."] returns, the lookup with the normalized
    file name [app]: the final path component of the empty name is ".".
    This is what [File app app] returns whenever the final path component
    of [app] is [app] itself or a sentinel, so for every [app] without a
    path separator. *)
Theorem File_empty_name (env : Env) (app : string) :
  (newFileConfig app "" = fileConfig.mk app app
   /\ result env (File app "") = result env (File app ".")
   /\ result env (File app "") = result env (fileOf app (fileConfig.mk app app)))
  /\ (Base app = app \/ Base app = "." \/ Base app = "/" ->
      result env (File app "") = result env (File app app))
  /\ (hasSep app = false ->
      result env (File app "") = result env (File app app)).
Proof.
  assert (Hcfg : forall name, Base name = "." \/ Base name = "/" ->
                              File app name = fileOf app (fileConfig.mk app app)).
  { intros name H. unfold File. now rewrite newFileConfig_sentinel. }
  assert (Hown : Base app = app \/ Base app = "." \/ Base app = "/" ->
                 File app app = fileOf app (fileConfig.mk app app)).
  { intros H. unfold File. now rewrite newFileConfig_own_base. }
  rewrite (Hcfg "" (or_introl eq_refl)), (Hcfg "." (or_introl eq_refl)).
  split; [repeat split|]. split.
  - intros H. now rewrite (Hown H).
  - intros H. rewrite Hown; [reflexivity|].
    destruct (Base_noSep app H); auto.
Qed.

Lemma File_empty_name_witness :
  result (Tests.withFile Tests.full "/mock/xdg/myapp/myapp" FileExists) (File "myapp" "")
  = result (Tests.withFile Tests.full "/mock/xdg/myapp/myapp" FileExists) (File "myapp" "myapp")
  /\ result Tests.nothing (File "myapp" "") = result Tests.nothing (File "myapp" "myapp").
Proof.
  split.
  - exact (proj1 (proj2 (File_empty_name
                           (Tests.withFile Tests.full "/mock/xdg/myapp/myapp" FileExists)
                           "myapp")) (or_introl eq_refl)).
  - exact (proj2 (proj2 (File_empty_name Tests.nothing "myapp")) eq_refl).
Defined.

(** C10 as stated fails for an application name with a separator inside,
    for the reason C8 does. *)
Lemma File_empty_name_counterexample :
  result Tests.noXdg (File "a/b" "") = Some ("/mock/home/.config/a/b/a/b", NotExists)
  /\ result Tests.noXdg (File "a/b" "a/b") = Some ("/mock/home/.config/a/b/b", NotExists)
  /\ ~ (forall env app, result env (File app "") = result env (File app app)).
Proof.
  repeat split.
  intros H. specialize (H Tests.noXdg "a/b").
  vm_compute in H. discriminate H.
Qed.

(* ===================================================================== *)
(** ** More facts about the path functions                                *)
(* ===================================================================== *)

(** Rows of the table of Go's own test of [Dir]. *)
Example dir_table :
  map filepath.Dir [""; "."; "/."; "/"; "/foo"; "x/"; "abc"; "abc/def";
                    "a/b/.x"; "a/b/c."; "a/b/c.x"]
  = ["."; "."; "/"; "/"; "/"; "x"; "."; "abc"; "a/b"; "a/b"; "a/b"].
Proof. reflexivity. Qed.

Lemma hasSep_app (a b : string) : hasSep (a ++ b) = hasSep a || hasSep b.
Proof.
  induction a as [|c a IH]; [reflexivity|].
  cbn [append]. rewrite !hasSep_cons, IH. now rewrite orb_assoc.
Qed.

Lemma dirPrefix_noSep (f : string) : noSep f -> dirPrefix f = "".
Proof.
  unfold noSep. destruct f as [|c r]; [reflexivity|].
  rewrite hasSep_cons. intros H. apply orb_false_iff in H. destruct H as [Hc Hr].
  cbn. now rewrite Hr, Hc.
Qed.

Lemma dirPrefix_app (a f : string) :
  noSep f -> dirPrefix (a ++ String "/"%char f) = a ++ "/".
Proof.
  intros Hf. induction a as [|c a IH].
  - cbn. unfold noSep in Hf. now rewrite Hf.
  - cbn [append dirPrefix]. rewrite hasSep_app, hasSep_cons.
    change (isSep "/") with true. rewrite orb_true_r. now rewrite IH.
Qed.

Lemma joinSep_rev_head (rooted : bool) (out : list string) :
  cleaned rooted out -> out <> [] ->
  exists c r, joinSep (rev out) = String c r.
Proof.
  intros Hout Hne.
  destruct (rev out) as [|e es] eqn:E.
  - exfalso. apply Hne. now rewrite <- (rev_involutive out), E.
  - assert (He : plain e).
    { pose proof (cleaned_plain _ _ Hout) as Hp. rewrite Forall_forall in Hp.
      apply Hp, in_rev. rewrite E. now left. }
    destruct He as (_ & Hn & _).
    destruct e as [|c e]; [congruence|].
    destruct (joinSep_head c e es) as [r Hr]. eauto.
Qed.

(** Writing one more plain element and taking [Dir] gives the buffer
    before. *)
Lemma Dir_render_push (rooted : bool) (out : list string) (f : string) :
  cleaned rooted out -> plainName f ->
  filepath.Dir (render rooted (f :: out)) = render rooted out.
Proof.
  intros Hout (Hs & Hn & Hd & Hdd).
  destruct out as [|e rest].
  - unfold render; cbn [rev List.app joinSep].
    destruct rooted.
    + unfold filepath.Dir. cbn [dirPrefix]. unfold noSep in Hs. rewrite Hs. reflexivity.
    + apply String.eqb_neq in Hn. rewrite Hn.
      unfold filepath.Dir. now rewrite (dirPrefix_noSep f Hs).
  - assert (Hpush : render rooted (f :: e :: rest)
                    = render rooted (e :: rest) ++ String "/"%char f).
    { unfold render. cbn [rev]. rewrite joinSep_snoc.
      2:{ intros E. apply app_eq_nil in E. destruct E; discriminate. }
      destruct (joinSep_rev_head rooted (e :: rest) Hout) as (c & r & Hj); [discriminate|].
      cbn [rev] in Hj. rewrite Hj.
      destruct rooted; reflexivity. }
    rewrite Hpush. unfold filepath.Dir. rewrite (dirPrefix_app _ f Hs).
    destruct (render_read rooted (e :: rest) Hout) as (Hne & Hr & Hf).
    destruct (append_sep_nonempty _ "" Hne) as [E1 R1].
    unfold Clean. rewrite E1, R1, Hr, splitSep_app, fold_left_app, Hf.
    reflexivity.
Qed.

Lemma cleanStep_plain (rooted : bool) (out : list string) (f : string) :
  plainName f -> cleanStep rooted out f = f :: out.
Proof.
  intros (_ & Hn & Hd & Hdd). unfold cleanStep.
  apply String.eqb_neq in Hn, Hd, Hdd. now rewrite Hn, Hd, Hdd.
Qed.

(** [Dir] undoes joining one plain element onto a cleaned path. *)
Lemma Dir_Clean_join (s f : string) :
  s <> "" -> plainName f -> filepath.Dir (Clean (s ++ String "/"%char f)) = Clean s.
Proof.
  intros Hs Hf.
  assert (Hst : cleaned (isRooted s) (fold_left (cleanStep (isRooted s)) (splitSep s) [])).
  { apply fold_cleanStep_cleaned; [apply splitSep_all_noSep|exact I]. }
  destruct (append_sep_nonempty _ f Hs) as [E R].
  unfold Clean at 1. rewrite E, R, splitSep_app, fold_left_app.
  rewrite (splitSep_one f (proj1 Hf)). cbn [fold_left].
  rewrite (cleanStep_plain _ _ f Hf), (Dir_render_push _ _ f Hst Hf).
  unfold Clean. apply String.eqb_neq in Hs. now rewrite Hs.
Qed.

Lemma Join_cons (e : string) (es : list string) :
  Join (e :: es) = if e =? "" then Join es else Clean (joinSep (e :: es)).
Proof. reflexivity. Qed.

(** [Dir] undoes [Join] with one more plain element. *)
Lemma Dir_Join_snoc (elem : list string) (f : string) :
  Join elem <> "" -> plainName f -> filepath.Dir (Join (elem ++ [f])) = Join elem.
Proof.
  intros Hne Hf. induction elem as [|e es IH]; [now elim Hne|].
  change ((e :: es) ++ [f])%list with (e :: (es ++ [f])%list).
  rewrite !Join_cons in *.
  destruct (String.eqb_spec e "") as [->|He]; [now apply IH|].
  change (e :: (es ++ [f])%list) with ((e :: es) ++ [f])%list.
  rewrite joinSep_snoc by discriminate.
  apply Dir_Clean_join; [|assumption].
  destruct e as [|c e]; [congruence|].
  destruct (joinSep_head c e es) as [r ->]. discriminate.
Qed.

(* ===================================================================== *)
(** ** The name normalizer, continued                                     *)
(* ===================================================================== *)

Lemma Base_noSep_nonempty (e : string) : noSep e -> e <> "" -> Base e = e.
Proof.
  intros Hs Hn. unfold Base.
  apply String.eqb_neq in Hn. rewrite Hn.
  rewrite (stripTrailingSep_noSep e Hs), (splitSep_one e Hs); cbn.
  now rewrite Hn.
Qed.

Lemma last_in {A} (l : list A) (d : A) : l <> [] -> In (last l d) l.
Proof.
  induction l as [|x [|y l] IH]; [congruence|now left|].
  intros _. right. apply IH. discriminate.
Qed.

(** The result of [Base] is "/" or one non-empty element. *)
Lemma Base_shape (path : string) :
  Base path = "/" \/ (noSep (Base path) /\ Base path <> "").
Proof.
  unfold Base.
  destruct (path =? ""); [right; split; [reflexivity|discriminate]|].
  destruct (String.eqb_spec (last (splitSep (stripTrailingSep path)) "") "") as [E|E];
    [now left|right].
  split; [|assumption].
  pose proof (splitSep_all_noSep (stripTrailingSep path)) as H.
  rewrite Forall_forall in H. apply H, last_in, splitSep_nonnil.
Qed.

Lemma Base_idempotent (path : string) : Base (Base path) = Base path.
Proof.
  destruct (Base_shape path) as [-> | [Hs Hn]]; [reflexivity|].
  now apply Base_noSep_nonempty.
Qed.

(** X9. Only the final path component of [name] counts: [File app name]
    is [File app (Base name)], so a directory part or trailing
    separators of [name] change neither the calls made nor the result. *)
Theorem File_uses_base (env : Env) (app name : string) :
  newFileConfig app name = newFileConfig app (Base name)
  /\ result env (File app name) = result env (File app (Base name))
  /\ trace env (File app name) = trace env (File app (Base name)).
Proof.
  assert (H : newFileConfig app name = newFileConfig app (Base name)).
  { unfold newFileConfig. now rewrite Base_idempotent. }
  unfold File. now rewrite <- H.
Qed.


(* ===================================================================== *)
(** ** What the resolvers return                                          *)
(* ===================================================================== *)

Lemma dirCandidates_nonempty (env : Env) (app : string) :
  Forall (fun c => c <> "") (dirCandidates env app).
Proof.
  unfold dirCandidates, homeCandidates.
  destruct (String.eqb_spec (envXdg env) ""); destruct (envHome env);
    repeat constructor; apply Join_nonempty.
  all: try (exists ".config"; split; [cbn; tauto|discriminate]).
  all: try (exists "lib"; split; [cbn; tauto|discriminate]).
  all: try (exists ("." ++ app); split; [cbn; tauto|discriminate]).
  all: try (exists (envXdg env); split; [cbn; tauto|assumption]).
Qed.

(** X1. [Dir] always returns a path (it never panics), the path is not
    empty, the boolean is the answer of the directory predicate for that
    very path, and the path is one of the generated candidates, or [.app]
    when there is none. *)
Theorem Dir_answer_is_checked (env : Env) (app : string) :
  exists p,
    result env (Dir app) = Some (p, envDirExists env p)
    /\ p <> ""
    /\ (In p (candidates env (list_ app))
        \/ candidates env (list_ app) = [] /\ p = "." ++ app).
Proof.
  rewrite Dir_resolveDir, candidates_list_. unfold resolveDir.
  pose proof (dirCandidates_nonempty env app) as Hne.
  rewrite Forall_forall in Hne.
  destruct (find _ _) as [d|] eqn:Hf.
  - apply find_some in Hf. destruct Hf as [Hin Hd].
    exists d. rewrite Hd. auto.
  - destruct (dirCandidates env app) as [|c rest] eqn:E.
    + exists ("." ++ app). repeat split; [discriminate|now right].
    + exists c. rewrite (find_none _ _ Hf c (or_introl eq_refl)).
      repeat split; [|now left; left]. apply Hne. now left.
Qed.

Lemma fileCandidates_nonempty (env : Env) (cfg : fileConfig.t) :
  Forall (fun c => c <> "") (fileCandidates env cfg).
Proof.
  unfold fileCandidates, fileHomeCandidates.
  destruct (String.eqb_spec (envXdg env) ""); destruct (envHome env);
    repeat constructor; apply Join_nonempty.
  all: try (exists ".config"; split; [cbn; tauto|discriminate]).
  all: try (exists "lib"; split; [cbn; tauto|discriminate]).
  all: try (exists ("." ++ fileConfig.App cfg); split; [cbn; tauto|discriminate]).
  all: try (exists ("." ++ fileConfig.App cfg ++ Ext (fileConfig.File cfg));
            split; [cbn; tauto|discriminate]).
  all: try (exists (envXdg env); split; [cbn; tauto|assumption]).
Qed.

(** X2. [File] always returns a non-empty path with the status the
    predicate reports for that very path; the path is one of the
    generated candidates or, when there is none, one of the two local
    paths. *)
Theorem File_answer_is_checked (env : Env) (app name : string) :
  let cfg := newFileConfig app name in
  exists p,
    result env (File app name) = Some (p, envCheckFile env p)
    /\ p <> ""
    /\ (In p (candidates env (fileConfig.List cfg))
        \/ candidates env (fileConfig.List cfg) = []
           /\ (p = Join ["." ++ app; fileConfig.File cfg]
               \/ p = "." ++ app ++ Ext (fileConfig.File cfg))).
Proof.
  intros cfg. unfold File. fold cfg.
  rewrite fileOf_resolveFile, candidates_List. unfold resolveFile.
  pose proof (fileCandidates_nonempty env cfg) as Hne.
  rewrite Forall_forall in Hne.
  destruct (find _ _) as [f|] eqn:Hf.
  - apply find_some in Hf. destruct Hf as [Hin Hd].
    apply isFile_true in Hd.
    exists f. rewrite Hd. auto.
  - destruct (fileCandidates env cfg) as [|c rest] eqn:E.
    + unfold localFile.
      destruct (isFile env _) eqn:Hl.
      * apply isFile_true in Hl. eexists. rewrite Hl.
        repeat split; [|right; split; [reflexivity|now left]].
        apply Join_nonempty. exists ("." ++ app). split; [cbn; tauto|discriminate].
      * eexists. repeat split; [discriminate|right; split; [reflexivity|now right]].
    + exists c. repeat split; [|now left; left]. apply Hne. now left.
Qed.

(** X3. A negative answer is sound.  When [Dir] returns false, no
    candidate exists, nor [.app] when it was the only place looked at;
    when [File] returns a status other than [FileExists], no candidate
    has status [FileExists], nor has either local path when they were
    the places looked at. *)
Theorem negative_answers (env : Env) (app name : string) :
  (forall p, result env (Dir app) = Some (p, false) ->
     (forall c, In c (candidates env (list_ app)) -> envDirExists env c = false)
     /\ (candidates env (list_ app) = [] -> envDirExists env ("." ++ app) = false))
  /\ (forall p st, result env (File app name) = Some (p, st) -> st <> FileExists ->
     (forall c, In c (candidates env (fileConfig.List (newFileConfig app name))) ->
        envCheckFile env c <> FileExists)
     /\ (candidates env (fileConfig.List (newFileConfig app name)) = [] ->
         envCheckFile env (Join ["." ++ app; fileConfig.File (newFileConfig app name)]) <> FileExists
         /\ envCheckFile env ("." ++ app ++ Ext (fileConfig.File (newFileConfig app name))) <> FileExists)).
Proof.
  split.
  - intros p. rewrite Dir_resolveDir. unfold resolveDir.
    destruct (find _ _) as [d|] eqn:Hf; [discriminate|].
    intros H. split.
    + intros c Hc. now apply (find_none _ _ Hf).
    + intros E. rewrite E in H. now injection H.
  - intros p st. unfold File. rewrite fileOf_resolveFile. unfold resolveFile.
    destruct (find _ _) as [d|] eqn:Hf; [intros [= _ <-]; congruence|].
    intros H Hst. split.
    + intros c Hc. apply isFile_false. now apply (find_none _ _ Hf).
    + intros E. rewrite E in H. unfold localFile in H.
      destruct (isFile env _) eqn:Hl; [injection H as _ <-; congruence|].
      apply isFile_false in Hl. split; [assumption|].
      injection H as _ <-. assumption.
Qed.

Lemma negative_answers_witness :
  (forall c, In c (candidates Tests.full (list_ "myapp")) ->
             envDirExists Tests.full c = false)
  /\ (forall c, In c (candidates Tests.full
                        (fileConfig.List (newFileConfig "myapp" "config.yaml"))) ->
                envCheckFile Tests.full c <> FileExists).
Proof.
  split.
  - exact (proj1 (proj1 (negative_answers Tests.full "myapp" "config.yaml")
                    "/mock/xdg/myapp" eq_refl)).
  - refine (proj1 (proj2 (negative_answers Tests.full "myapp" "config.yaml")
                     "/mock/xdg/myapp/config.yaml" NotExists eq_refl _)).
    discriminate.
Defined.

(* ===================================================================== *)
(** ** The calls the resolvers make                                       *)
(* ===================================================================== *)

(** X4. One call of [Dir] reads [XDG_CONFIG_HOME] exactly once, and first;
    asks for the home directory at most once; and asks the directory
    predicate at least once and at most three times. *)
Theorem Dir_call_bounds (env : Env) (app : string) :
  let t := trace env (Dir app) in
  hd_error t = Some EvXdgConfigHome
  /\ xdgLookups t = 1
  /\ homeLookups t <= 1
  /\ 1 <= length (dirChecks t) <= 3.
Proof.
  destruct env as [xdg home de cf]. unfold trace; cbn.
  destruct (xdg =? "") eqn:Ex; destruct home; cbn.
  all: ask de; first_candidate; cbn; repeat split; lia.
Qed.

(** X5. One call of [File] reads [XDG_CONFIG_HOME] exactly once, and
    first; asks for the home directory at most once; and asks the file
    predicate at least once and at most five times. *)
Theorem File_call_bounds (env : Env) (app name : string) :
  let t := trace env (File app name) in
  hd_error t = Some EvXdgConfigHome
  /\ xdgLookups t = 1
  /\ homeLookups t <= 1
  /\ 1 <= length (fileChecks t) <= 5.
Proof.
  unfold File. generalize (newFileConfig app name) as cfg. intros [app' file].
  destruct env as [xdg home de cf]. unfold trace; cbn.
  destruct (xdg =? "") eqn:Ex; destruct home; cbn.
  all: ask cf; first_candidate; cbn; repeat split; lia.
Qed.

Lemma fileOf_xdg_hit (env : Env) (app : string) (cfg : fileConfig.t) :
  envXdg env <> "" ->
  envCheckFile env (Join [envXdg env; fileConfig.App cfg; fileConfig.File cfg]) = FileExists ->
  trace env (fileOf app cfg)
  = [EvXdgConfigHome;
     EvCheckFile (Join [envXdg env; fileConfig.App cfg; fileConfig.File cfg])].
Proof.
  intros Hx Hf. apply String.eqb_neq in Hx.
  destruct env as [xdg home de cf]; destruct cfg as [app' file]; cbn in *.
  unfold trace; cbn. rewrite Hx; cbn. now rewrite Hf.
Qed.

(** X6. With a non-empty XDG base, a hit on the XDG candidate ends the
    call at once: [Dir] and [File] make one check and never ask for the
    home directory. *)
Theorem xdg_hit_skips_home (env : Env) (app name : string) :
  envXdg env <> "" ->
  (envDirExists env (Join [envXdg env; app]) = true ->
     trace env (Dir app) = [EvXdgConfigHome; EvDirExists (Join [envXdg env; app])])
  /\ (let file := fileConfig.File (newFileConfig app name) in
      envCheckFile env (Join [envXdg env; app; file]) = FileExists ->
      trace env (File app name)
      = [EvXdgConfigHome; EvCheckFile (Join [envXdg env; app; file])]).
Proof.
  intros Hx. split.
  - intros Hd. apply String.eqb_neq in Hx.
    destruct env as [xdg home de cf]; cbn in *.
    unfold trace; cbn. rewrite Hx; cbn. now rewrite Hd.
  - intros file Hf. unfold File.
    now rewrite (fileOf_xdg_hit env app (newFileConfig app name) Hx Hf).
Qed.

Lemma xdg_hit_skips_home_witness :
  trace (Tests.withDir Tests.full "/mock/xdg/myapp") (Dir "myapp")
  = [EvXdgConfigHome; EvDirExists "/mock/xdg/myapp"]
  /\ trace (Tests.withFile Tests.full "/mock/xdg/myapp/config.yaml" FileExists)
           (File "myapp" "config.yaml")
     = [EvXdgConfigHome; EvCheckFile "/mock/xdg/myapp/config.yaml"].
Proof.
  split.
  - refine (proj1 (xdg_hit_skips_home (Tests.withDir Tests.full "/mock/xdg/myapp")
                     "myapp" "config.yaml" _) eq_refl).
    discriminate.
  - refine (proj2 (xdg_hit_skips_home
                     (Tests.withFile Tests.full "/mock/xdg/myapp/config.yaml" FileExists)
                     "myapp" "config.yaml" _) eq_refl).
    discriminate.
Defined.

(* ===================================================================== *)
(** ** The iterators, for any consumer                                    *)
(* ===================================================================== *)

(** Case analysis on every answer the consumer gives. *)
Ltac answer consumer :=
  repeat match goal with
         | |- context [consumer ?c ?s] =>
             let b := fresh "b" in let s' := fresh "s" in
             destruct (consumer c s) as [b s'] eqn:?; destruct b; cbn
         end.

(** X7. Whatever the consumer answers, the candidates an iterator of the
    package hands to it are a prefix of the sequence it generates when it
    is never stopped, in the same order; a consumer that accepts every
    candidate it gets sees the whole sequence. *)
Theorem yields_prefix {S} (seq : Seq) (env : Env)
    (consumer : string -> S -> bool * S) (s : S) :
  packageSeq seq ->
  let ys := yields (fst (exec env consumer seq s)) in
  (exists n, map fst ys = firstn n (candidates env seq))
  /\ (forallb snd ys = true -> map fst ys = candidates env seq).
Proof.
  intros Hseq. destruct env as [xdg home de cf].
  destruct Hseq; unfold candidates; cbn.
  all: try destruct (xdg =? ""); try destruct home; cbn.
  all: answer consumer.
  all: split; [|intros H; first [discriminate H | reflexivity]].
  all: first [ now exists 0 | now exists 1 | now exists 2 | now exists 3 | now exists 4 ].
Qed.

Lemma yields_prefix_witness :
  exists n,
    map fst (yields (fst (exec Tests.full Tests.countAndStop (list_ "myapp") 0)))
    = firstn n (candidates Tests.full (list_ "myapp")).
Proof.
  exact (proj1 (yields_prefix (list_ "myapp") Tests.full Tests.countAndStop 0
                  (seq_list "myapp"))).
Defined.

(** X8. The iterators of the package never ask an existence predicate,
    whatever the consumer does; they read [XDG_CONFIG_HOME] and the home
    directory at most once each. *)
Theorem iterators_only_look_up {S} (seq : Seq) (env : Env)
    (consumer : string -> S -> bool * S) (s : S) :
  packageSeq seq ->
  let t := fst (exec env consumer seq s) in
  dirChecks t = [] /\ fileChecks t = []
  /\ xdgLookups t <= 1 /\ homeLookups t <= 1.
Proof.
  intros Hseq. destruct env as [xdg home de cf].
  destruct Hseq; cbn.
  all: try destruct (xdg =? ""); try destruct home; cbn.
  all: answer consumer.
  all: repeat split; lia.
Qed.

Lemma iterators_only_look_up_witness :
  fileChecks (fst (exec Tests.noXdg appendAll
                     (fileConfig.List (newFileConfig "myapp" "config.yaml")) [])) = []
  /\ homeLookups (fst (exec Tests.noXdg appendAll
                         (fileConfig.List (newFileConfig "myapp" "config.yaml")) [])) <= 1.
Proof.
  pose proof (iterators_only_look_up
                (fileConfig.List (newFileConfig "myapp" "config.yaml"))
                Tests.noXdg appendAll []
                (seq_List (newFileConfig "myapp" "config.yaml"))) as H.
  exact (conj (proj1 (proj2 H)) (proj2 (proj2 (proj2 H)))).
Defined.

(* ===================================================================== *)
(** ** File candidates and their directories                              *)
(* ===================================================================== *)

Lemma dirCandidates_joined (env : Env) (app d : string) :
  In d (dirCandidates env app) -> exists elem, d = Join elem /\ Join elem <> "".
Proof.
  intros Hin.
  pose proof (dirCandidates_nonempty env app) as Hne. rewrite Forall_forall in Hne.
  specialize (Hne d Hin). revert Hin Hne.
  unfold dirCandidates, homeCandidates.
  destruct (envXdg env =? ""); destruct (envHome env); cbn; intros Hin Hne.
  all: repeat match goal with
              | H : _ \/ _ |- _ => destruct H as [H|H]
              | H : False |- _ => destruct H
              end; subst d; eauto.
Qed.

Lemma fileCandidates_map (env : Env) (app name : string) :
  let file := fileConfig.File (newFileConfig app name) in
  candidates env (fileConfig.List (newFileConfig app name))
  = List.app (map (fun dir => Join [dir; file]) (candidates env (list_ app)))
             match envHome env with
             | Some home => [Join [home; "." ++ app ++ Ext file]]
             | None => []
             end.
Proof.
  intros file.
  rewrite candidates_List, candidates_list_.
  unfold fileCandidates, fileHomeCandidates, dirCandidates, homeCandidates.
  change (fileConfig.App (newFileConfig app name)) with app. fold file.
  destruct (envXdg env =? ""); destruct (envHome env); cbn [map List.app];
    now rewrite ?Join_snoc.
Qed.

Lemma Dir_of_file_candidate (env : Env) (app file d : string) :
  plainName file -> In d (candidates env (list_ app)) ->
  filepath.Dir (Join [d; file]) = d.
Proof.
  intros Hf Hd. rewrite candidates_list_ in Hd.
  destruct (dirCandidates_joined env app d Hd) as (elem & -> & Hne).
  rewrite Join_snoc. now apply Dir_Join_snoc.
Qed.

(** X11. When the normalized file name is one ordinary path element,
    every directory candidate [d] has its file candidate [Join(d, file)]
    in the file-mode sequence, and that candidate lies directly in [d]:
    [filepath.Dir] of it is [d].  No such candidate leaves the
    directories [Dir] searches. *)
Theorem file_candidates_inside (env : Env) (app name : string) :
  let file := fileConfig.File (newFileConfig app name) in
  plainName file ->
  forall d, In d (candidates env (list_ app)) ->
    In (Join [d; file]) (candidates env (fileConfig.List (newFileConfig app name)))
    /\ filepath.Dir (Join [d; file]) = d.
Proof.
  intros file Hf d Hd. split.
  - rewrite fileCandidates_map.
    apply in_or_app. left.
    exact (in_map (fun dir => Join [dir; file]) _ d Hd).
  - now apply (Dir_of_file_candidate env app).
Qed.

Lemma file_candidates_inside_witness :
  In "/mock/home/lib/myapp/config.yaml"
     (candidates Tests.full (fileConfig.List (newFileConfig "myapp" "config.yaml")))
  /\ filepath.Dir "/mock/home/lib/myapp/config.yaml" = "/mock/home/lib/myapp".
Proof.
  refine (file_candidates_inside Tests.full "myapp" "config.yaml" _
            "/mock/home/lib/myapp" _).
  - repeat split; discriminate.
  - right. left. reflexivity.
Defined.



(* ===================================================================== *)
(** ** The initial predicates                                             *)
(* ===================================================================== *)

(** X13. The two initial predicates on one file system: a path
    [dirExists] accepts has status [FileExists] (a directory counts as an
    existing file); a path with status [BaseExists] is not an existing
    directory and its [filepath.Dir] has status [FileExists]; a path with
    status [NotExists] is not an existing directory, and neither is its
    [filepath.Dir]. *)
Theorem os_predicates_agree (stat : Stat) (p : string) :
  (osDirExists stat p = true -> osCheckFile stat p = FileExists)
  /\ (osCheckFile stat p = BaseExists ->
      osDirExists stat p = false
      /\ osCheckFile stat (filepath.Dir p) = FileExists)
  /\ (osCheckFile stat p = NotExists ->
      osDirExists stat p = false
      /\ osDirExists stat (filepath.Dir p) = false).
Proof.
  unfold osDirExists, osCheckFile.
  destruct (stat p) as [i|]; [repeat split; discriminate|].
  destruct (stat (filepath.Dir p)) as [j|]; repeat split; discriminate.
Qed.

Lemma os_predicates_agree_witness :
  osCheckFile Disk.xdgDirOnly "/mock/xdg/myapp" = FileExists
  /\ osCheckFile Disk.xdgDirOnly (filepath.Dir "/mock/xdg/myapp/config.yaml") = FileExists
  /\ osDirExists Disk.xdgDirOnly (filepath.Dir "/mock/home/.myapp/config.yaml") = false.
Proof.
  split; [|split].
  - exact (proj1 (os_predicates_agree Disk.xdgDirOnly "/mock/xdg/myapp") eq_refl).
  - exact (proj2 (proj1 (proj2 (os_predicates_agree Disk.xdgDirOnly
                                  "/mock/xdg/myapp/config.yaml")) eq_refl)).
  - exact (proj2 (proj2 (proj2 (os_predicates_agree Disk.xdgDirOnly
                                  "/mock/home/.myapp/config.yaml")) eq_refl)).
Defined.

Lemma append_empty_r (s : string) : s ++ "" = s.
Proof. induction s as [|c s IH]; cbn; [reflexivity|]. now rewrite IH. Qed.

(** X14. With the initial predicates and a file name that is one ordinary
    path element: when the first directory candidate exists on the file
    system, [File] never returns [NotExists], and a [BaseExists] answer is
    for the file directly in that first directory. *)
Theorem File_base_of_first_dir (xdg : string) (home : option string) (stat : Stat)
    (app name : string) :
  let env := osEnv xdg home stat in
  let file := fileConfig.File (newFileConfig app name) in
  plainName file ->
  forall c rest,
    candidates env (list_ app) = c :: rest ->
    stat c <> None ->
    exists p st,
      result env (File app name) = Some (p, st)
      /\ st <> NotExists
      /\ (st = BaseExists -> p = Join [c; file]).
Proof.
  intros env file Hf c rest Hcs Hc.
  unfold File. rewrite fileOf_resolveFile, fileCandidates_map. fold file.
  rewrite Hcs. cbn [map List.app]. unfold resolveFile.
  destruct (find _ _) as [f|] eqn:Hfind.
  - exists f, FileExists. repeat split; discriminate.
  - exists (Join [c; file]), (envCheckFile env (Join [c; file])).
    split; [reflexivity|]. split; [|reflexivity].
    assert (Hd : filepath.Dir (Join [c; file]) = c).
    { apply (Dir_of_file_candidate env app); [exact Hf|]. rewrite Hcs. now left. }
    change (envCheckFile env (Join [c; file])) with (osCheckFile stat (Join [c; file])).
    unfold osCheckFile. rewrite Hd.
    destruct (stat (Join [c; file])); [discriminate|].
    destruct (stat c); [discriminate|congruence].
Qed.

Lemma File_base_of_first_dir_witness :
  exists p st,
    result (osEnv "/mock/xdg" (Some "/mock/home") Disk.xdgDirOnly)
           (File "myapp" "config.yaml") = Some (p, st)
    /\ st <> NotExists
    /\ (st = BaseExists -> p = "/mock/xdg/myapp/config.yaml").
Proof.
  refine (File_base_of_first_dir "/mock/xdg" (Some "/mock/home") Disk.xdgDirOnly
            "myapp" "config.yaml" _
            "/mock/xdg/myapp" ["/mock/home/lib/myapp"; "/mock/home/.myapp"] eq_refl _).
  - repeat split; discriminate.
  - discriminate.
Defined.

(** X15. With the initial predicates and a normalized file name without
    extension, the last file candidate is the directory candidate
    [home/.app] itself: when that directory exists and the file is in
    none of the candidate directories, [File] returns the directory
    [home/.app] with [FileExists]. *)
Theorem File_without_extension_finds_dir (xdg home : string) (stat : Stat)
    (app name : string) :
  let env := osEnv xdg (Some home) stat in
  let file := fileConfig.File (newFileConfig app name) in
  Ext file = "" ->
  osDirExists stat (Join [home; "." ++ app]) = true ->
  (forall d, In d (candidates env (list_ app)) -> stat (Join [d; file]) = None) ->
  In (Join [home; "." ++ app]) (candidates env (list_ app))
  /\ result env (File app name) = Some (Join [home; "." ++ app], FileExists).
Proof.
  intros env file Hext Hdir Hnone. split.
  - rewrite candidates_list_. unfold dirCandidates, homeCandidates. cbn.
    destruct (xdg =? ""); cbn; tauto.
  - unfold File. rewrite fileOf_resolveFile, fileCandidates_map. fold file.
    cbn [envHome env osEnv]. rewrite Hext, append_empty_r.
    unfold resolveFile.
    rewrite (find_first (isFile env) _ [] (Join [home; "." ++ app])); [reflexivity| |].
    + apply Forall_forall. intros f Hf. apply in_map_iff in Hf.
      destruct Hf as (d & <- & Hd). apply isFile_false.
      change (envCheckFile env (Join [d; file])) with (osCheckFile stat (Join [d; file])).
      unfold osCheckFile. rewrite (Hnone d Hd).
      now destruct (stat _).
    + apply isFile_true.
      change (envCheckFile env (Join [home; "." ++ app]))
        with (osCheckFile stat (Join [home; "." ++ app])).
      unfold osDirExists in Hdir. unfold osCheckFile.
      now destruct (stat (Join [home; "." ++ app])).
Qed.

Lemma File_without_extension_finds_dir_witness :
  result (osEnv "/mock/xdg" (Some "/mock/home") Disk.dotDirOnly) (File "myapp" "config")
  = Some ("/mock/home/.myapp", FileExists).
Proof.
  refine (proj2 (File_without_extension_finds_dir "/mock/xdg" "/mock/home"
                   Disk.dotDirOnly "myapp" "config" eq_refl eq_refl _)).
  intros d [<-|[<-|[<-|[]]]]; reflexivity.
Defined.
